(** * EduGesture: the hand-gesture classifier and its cooldown gate

    A shallow embedding of [GestureDetector] from [src/gesture_detector.py]:
    [_is_finger_extended], [_classify_gesture] and the cooldown logic of
    [detect_gesture].

    Numbers.  The landmark coordinates, the clock readings and the
    confidences are Python/NumPy double-precision values.  They are
    idealised here as real numbers: [np.linalg.norm] of a planar vector is
    [sqrt (x*x + y*y)], [/], [-], [*] and [<] are those of [R].  Rounding,
    infinities and NaN are outside the model.

    Exceptions.  Indexing the landmark array out of range raises
    [IndexError]; fallible code lives in the [result] monad below. *)

From Stdlib Require Import Reals Lra Lia List ZArith String Bool.
Import ListNotations.

Open Scope R_scope.

(** ** Exceptions and the error monad *)

Inductive exn : Type :=
| IndexError.

Inductive result (A : Type) : Type :=
| Ok (a : A)
| Raise (e : exn).

Arguments Ok {A} a.
Arguments Raise {A} e.

Definition bind {A B : Type} (m : result A) (k : A -> result B) : result B :=
  match m with
  | Ok a => k a
  | Raise e => Raise e
  end.

Notation "x <- m ;; k" := (bind m (fun x => k))
  (at level 61, m at next level, right associativity).

(** ** Comparisons as booleans *)

Definition Rltb (a b : R) : bool := if Rlt_dec a b then true else false.
Definition Rgtb (a b : R) : bool := Rltb b a.

(** ** Landmarks and planar vectors *)

(** One row [[x, y, z]] of the landmark array. *)
Record Landmark : Type := mkLandmark { lx : R; ly : R; lz : R }.

(** A slice [p[:2]], and the result of arithmetic on such slices. *)
Definition vec2 : Type := (R * R)%type.

Definition planar (p : Landmark) : vec2 := (lx p, ly p).

Definition vsub (a b : vec2) : vec2 := (fst a - fst b, snd a - snd b).
Definition vdiv (a : vec2) (k : R) : vec2 := (fst a / k, snd a / k).
Definition dot (a b : vec2) : R := fst a * fst b + snd a * snd b.

(** [np.linalg.norm] on a one-dimensional array: [sqrt (dot x x)]. *)
Definition norm (a : vec2) : R := sqrt (dot a a).

(** [landmarks[i]] on the first axis: a negative index counts from the
    end, anything outside [-len, len) raises [IndexError]. *)
Definition getitem (landmarks : list Landmark) (i : Z) : result Landmark :=
  let n := Z.of_nat (List.length landmarks) in
  let j := if (i <? 0)%Z then (i + n)%Z else i in
  if ((0 <=? j) && (j <? n))%Z
  then match nth_error landmarks (Z.to_nat j) with
       | Some p => Ok p
       | None => Raise IndexError
       end
  else Raise IndexError.

(** ** The finger-extension test *)

Module Finger.

(** The [if]/[elif] ladder of [_is_finger_extended]: the tip index selects
    [(ip_idx, mcp_idx)]; [None] is the final [else: return False]. *)
Definition joints (finger_tip_idx : Z) : option (Z * Z) :=
  if (finger_tip_idx =? 4)%Z then Some (3, 2)%Z
  else if (finger_tip_idx =? 8)%Z then Some (7, 5)%Z
  else if (finger_tip_idx =? 12)%Z then Some (11, 9)%Z
  else if (finger_tip_idx =? 16)%Z then Some (15, 13)%Z
  else if (finger_tip_idx =? 20)%Z then Some (19, 17)%Z
  else None.

End Finger.

Definition is_finger_extended (landmarks : list Landmark) (finger_tip_idx : Z)
  : result bool :=
  match Finger.joints finger_tip_idx with
  | None => Ok false
  | Some (ip_idx, mcp_idx) =>
      tip <- getitem landmarks finger_tip_idx ;;
      ip <- getitem landmarks ip_idx ;;
      mcp <- getitem landmarks mcp_idx ;;
      wrist <- getitem landmarks 0%Z ;;
      (* Method 1: tip further from the wrist than the IP joint *)
      let tip_to_wrist := norm (vsub (planar tip) (planar wrist)) in
      let ip_to_wrist := norm (vsub (planar ip) (planar wrist)) in
      (* Method 2: finger pointing outward *)
      let wrist_to_mcp := vsub (planar mcp) (planar wrist) in
      let mcp_to_tip := vsub (planar tip) (planar mcp) in
      let wrist_to_mcp :=
        if Rgtb (norm wrist_to_mcp) 0
        then vdiv wrist_to_mcp (norm wrist_to_mcp) else wrist_to_mcp in
      let mcp_to_tip :=
        if Rgtb (norm mcp_to_tip) 0
        then vdiv mcp_to_tip (norm mcp_to_tip) else mcp_to_tip in
      let dot_product := dot wrist_to_mcp mcp_to_tip in
      let distance_criterion := Rgtb tip_to_wrist (ip_to_wrist * 0.9) in
      let direction_criterion := Rgtb dot_product 0.3 in
      Ok (distance_criterion && direction_criterion)
  end.

(** ** The classifier *)

Local Open Scope string_scope.

(** A gesture name as the code has it: a string, or [None]. *)
Definition gesture : Type := option string.

(** Python truthiness of a gesture name, as tested by [if gesture:]. *)
Definition truthy (g : gesture) : bool :=
  match g with
  | Some s => negb (String.eqb s "")
  | None => false
  end.

Definition classify_gesture (landmarks : list Landmark) : result (gesture * R) :=
  thumb_tip <- getitem landmarks 4%Z ;;
  index_tip <- getitem landmarks 8%Z ;;
  middle_tip <- getitem landmarks 12%Z ;;
  ring_tip <- getitem landmarks 16%Z ;;
  pinky_tip <- getitem landmarks 20%Z ;;
  wrist <- getitem landmarks 0%Z ;;
  thumb_extended <- is_finger_extended landmarks 4%Z ;;
  index_extended <- is_finger_extended landmarks 8%Z ;;
  middle_extended <- is_finger_extended landmarks 12%Z ;;
  ring_extended <- is_finger_extended landmarks 16%Z ;;
  pinky_extended <- is_finger_extended landmarks 20%Z ;;
  (* Direction vector (wrist to index finger tip) *)
  let direction := vsub (planar index_tip) (planar wrist) in
  let direction_norm := norm direction in
  let direction :=
    if Rgtb direction_norm 0 then vdiv direction direction_norm else direction in
  if index_extended && negb middle_extended && negb ring_extended
     && negb pinky_extended && Rgtb (fst direction) 0.5
  then Ok (Some "right", 0.85)
  else if index_extended && negb middle_extended && negb ring_extended
          && negb pinky_extended && Rltb (fst direction) (-0.5)
  then Ok (Some "left", 0.85)
  else if index_extended && middle_extended && negb ring_extended
          && negb pinky_extended
  then Ok (Some "two_fingers", 0.9)
  else if middle_extended && ring_extended && pinky_extended
          && Rltb (norm (vsub (planar thumb_tip) (planar index_tip))) 0.08
  then Ok (Some "ok", 0.85)
  else if forallb (fun b => b)
            [thumb_extended; index_extended; middle_extended;
             ring_extended; pinky_extended]
  then Ok (Some "palm", 0.9)
  else Ok (None, 0).

(** ** The detector state and the cooldown gate *)

(** One row of the CSV log written by [log_gesture]: gesture, confidence,
    success.  The first column, a wall-clock string taken from
    [datetime.now()], is not modelled. *)
Definition log_row : Type := (gesture * R * bool)%type.

(** The mutable attributes of a [GestureDetector]. *)
Record detector : Type := mkDetector {
  last_gesture : gesture;
  gesture_timestamp : R;
  gesture_cooldown : R;
  log : list log_row
}.

(** The attributes after [__init__]. *)
Definition init : detector :=
  {| last_gesture := None;
     gesture_timestamp := 0;
     gesture_cooldown := 0.8;
     log := [] |}.

(** [log_gesture]: the log file is open from [init_log] on, so the row is
    always written. *)
Definition log_gesture (d : detector) (g : gesture) (confidence : R)
           (success : bool) : detector :=
  {| last_gesture := last_gesture d;
     gesture_timestamp := gesture_timestamp d;
     gesture_cooldown := gesture_cooldown d;
     log := log d ++ [(g, confidence, success)] |}.

(** What the landmark provider hands over for one frame: the detected
    hands ([results.multi_hand_landmarks], at most one since
    [max_num_hands=1]), each paired with the value [time.time()] returns
    in its loop iteration. *)
Definition hand : Type := list Landmark.
Definition frame : Type := list (hand * R).

(** The triple returned by [detect_gesture]. *)
Definition output : Type := (gesture * option hand * R)%type.

(** [detect_gesture], from the loop over the detected hands on. *)
Fixpoint detect_gesture (d : detector) (hands : frame)
  : result (output * detector) :=
  match hands with
  | [] => Ok ((None, None, 0), d)
  | (hand_landmarks, current_time) :: rest =>
      gc <- classify_gesture hand_landmarks ;;
      let '(g, confidence) := gc in
      if Rltb (current_time - gesture_timestamp d) (gesture_cooldown d)
      then Ok ((None, Some hand_landmarks, 0), d)
      else if truthy g
      then
        let d := {| last_gesture := g;
                    gesture_timestamp := current_time;
                    gesture_cooldown := gesture_cooldown d;
                    log := log d |} in
        let d := log_gesture d g confidence true in
        Ok ((g, Some hand_landmarks, confidence), d)
      else detect_gesture d rest
  end.

(** Frame after frame, threading the detector; the first exception ends
    the run. *)
Fixpoint run (d : detector) (frames : list frame)
  : result (list output * detector) :=
  match frames with
  | [] => Ok ([], d)
  | f :: rest =>
      od <- detect_gesture d f ;;
      ods <- run (snd od) rest ;;
      Ok (fst od :: fst ods, snd ods)
  end.

(** A frame's output carries a gesture: the caller's [if gesture:]. *)
Definition emitted (o : output) : bool := truthy (fst (fst o)).


(** ** Auxiliary definitions used by the statements *)

(** The vector the code continues with after one of its guards
    [if np.linalg.norm(v) > 0: v = v / np.linalg.norm(v)]. *)
Definition normalized (v : vec2) : vec2 :=
  if Rgtb (norm v) 0 then vdiv v (norm v) else v.

(** The extension test on four planar points, free of square roots and
    divisions; [is_finger_extended_alg] below shows that the code computes
    it. *)
Definition extended_alg (tip ip mcp wrist : vec2) : bool :=
  let u := vsub mcp wrist in
  let v := vsub tip mcp in
  Rltb (81 * dot (vsub ip wrist) (vsub ip wrist))
       (100 * dot (vsub tip wrist) (vsub tip wrist))
  && (Rltb 0 (dot u v)
  && Rltb (9 * (dot u u * dot v v)) (100 * (dot u v * dot u v))).

Definition origin : Landmark := mkLandmark 0 0 0.

(** The [i]-th landmark of a set known to be long enough. *)
Definition point (landmarks : list Landmark) (i : Z) : Landmark :=
  nth (Z.to_nat i) landmarks origin.


(** A fingertip pushed on by [s] times the base-joint-to-tip vector, in the
    image plane; its depth becomes [z]. *)
Definition advance (tip mcp : Landmark) (s z : R) : Landmark :=
  mkLandmark (lx tip + s * (lx tip - lx mcp))
             (ly tip + s * (ly tip - ly mcp)) z.


(** Two landmarks at the same place of the image plane. *)
Definition same_xy (p q : Landmark) : Prop := lx p = lx q /\ ly p = ly q.

(** The six results the specification lists for the classifier. *)
Definition six_labels : list (gesture * R) :=
  [ (Some "right", 0.85); (Some "left", 0.85); (Some "two_fingers", 0.9);
    (Some "ok", 0.85); (Some "palm", 0.9); (None, 0) ].

(** A frame with a single detected hand, read at clock value [now]. *)
Definition one_hand (landmarks : hand) (now : R) : frame := [(landmarks, now)].

(** No output of a run carries a gesture. *)
Definition quiet (outs : list output) : bool :=
  forallb (fun o => negb (emitted o)) outs.

(** What the caller sees of a call: the returned triple, or the exception. *)
Definition outcome (r : result (output * detector)) : result output :=
  x <- r ;; Ok (fst x).

(** ** The finger-extension test in the words of the specification *)

Module Spec.

(** The lookup table of section 4.1: tip, mid joint, base joint. *)
Definition finger_table : list (Z * Z * Z) :=
  [ (4, 3, 2); (8, 7, 5); (12, 11, 9); (16, 15, 13); (20, 19, 17) ]%Z.

(** Planar Euclidean distance between two landmarks. *)
Definition distance (p q : Landmark) : R :=
  sqrt ((lx p - lx q) ^ 2 + (ly p - ly q) ^ 2).

(** The planar vector from [p] to [q]. *)
Definition arrow (p q : Landmark) : vec2 := (lx q - lx p, ly q - ly p).

Definition vlength (v : vec2) : R := sqrt (fst v ^ 2 + snd v ^ 2).

(** The unit vector of [v]; a vector of zero length is left as it is. *)
Definition unit (v : vec2) : vec2 :=
  if Req_dec_T (vlength v) 0 then v
  else (fst v / vlength v, snd v / vlength v).

Definition distance_criterion (tip ip wrist : Landmark) : Prop :=
  distance tip wrist > 0.9 * distance ip wrist.

Definition direction_criterion (tip mcp wrist : Landmark) : Prop :=
  dot (unit (arrow wrist mcp)) (unit (arrow mcp tip)) > 0.3.


Definition extended (landmarks : list Landmark) (finger : Z) : Prop :=
  exists ip mcp,
    In (finger, ip, mcp) finger_table /\
    distance_criterion (point landmarks finger) (point landmarks ip)
                       (point landmarks 0%Z) /\
    direction_criterion (point landmarks finger) (point landmarks mcp)
                        (point landmarks 0%Z).

End Spec.

(** ** Two concrete hands *)

Module Hands.

Definition pt (x y : R) : Landmark := mkLandmark x y 0.

(** An open hand, wrist at the bottom of the image, fingers spread. *)
Definition palm_hand : hand :=
  [ pt 0.50 0.90;
    pt 0.42 0.82; pt 0.36 0.74; pt 0.32 0.66; pt 0.30 0.58;
    pt 0.44 0.60; pt 0.43 0.50; pt 0.42 0.42; pt 0.41 0.34;
    pt 0.50 0.58; pt 0.50 0.47; pt 0.50 0.38; pt 0.50 0.30;
    pt 0.56 0.60; pt 0.57 0.50; pt 0.58 0.42; pt 0.59 0.35;
    pt 0.62 0.64; pt 0.64 0.56; pt 0.66 0.50; pt 0.68 0.44 ].

(** The same hand with the thumb laid along the index finger: all five
    fingers pass the extension test and the two tips are 0.061 apart. *)
Definition pinch_hand : hand :=
  [ pt 0.50 0.90;
    pt 0.44 0.82; pt 0.40 0.74; pt 0.40 0.56; pt 0.40 0.40;
    pt 0.44 0.60; pt 0.43 0.50; pt 0.42 0.42; pt 0.41 0.34;
    pt 0.50 0.58; pt 0.50 0.47; pt 0.50 0.38; pt 0.50 0.30;
    pt 0.56 0.60; pt 0.57 0.50; pt 0.58 0.42; pt 0.59 0.35;
    pt 0.62 0.64; pt 0.64 0.56; pt 0.66 0.50; pt 0.68 0.44 ].

(** [palm_hand] seen at another depth. *)
Definition deep_palm_hand : hand :=
  map (fun p => mkLandmark (lx p) (ly p) (lz p + 1)) palm_hand.

End Hands.

(** The detector one second after start, having emitted a palm. *)
Definition after_palm : detector :=
  {| last_gesture := Some "palm";
     gesture_timestamp := 1;
     gesture_cooldown := 0.8;
     log := [(Some "palm", 0.9, true)] |}.

(** ** Further definitions for the detector *)

(** The CSV row [log_gesture] writes for an emitted output. *)
Definition row_of (o : output) : log_row := (fst (fst o), snd o, true).

(** The outputs of a run that carry a gesture, in order. *)
Definition emissions (outs : list output) : list output := filter emitted outs.

(** Every clock reading of a list of frames is at most [T]. *)
Definition clock_below (T : R) (fs : list frame) : Prop :=
  Forall (fun f : frame => Forall (fun h : hand * R => snd h <= T) f) fs.

(** The caption [draw_gesture_text] puts on the frame after "Gest: ": the
    dictionary lookup with its default, [gesture.upper()].  Python's
    [str.upper] is a parameter.  Nothing is drawn for a falsy gesture. *)
Definition gesture_text (upper : string -> string) (g : gesture)
  : option string :=
  if truthy g then
    match g with
    | Some name =>
        Some (if String.eqb name "right" then "DREAPTA"
              else if String.eqb name "left" then "STANGA"
              else if String.eqb name "two_fingers" then "DOUA DEGETE"
              else if String.eqb name "ok" then "OK"
              else if String.eqb name "palm" then "PALMA"
              else upper name)
    | None => None
    end
  else None.

(** The captions of the dictionary. *)
Definition captions : list string :=
  ["DREAPTA"; "STANGA"; "DOUA DEGETE"; "OK"; "PALMA"].

(** Transformations of a landmark in the image plane. *)
Definition mirror_x (a : R) (p : Landmark) : Landmark :=
  mkLandmark (a - lx p) (ly p) (lz p).

Definition shift (dx dy dz : R) (p : Landmark) : Landmark :=
  mkLandmark (lx p + dx) (ly p + dy) (lz p + dz).


(** A classification with "right" and "left" exchanged. *)
Definition swap_lr (g : gesture) : gesture :=
  match g with
  | Some name =>
      if String.eqb name "right" then Some "left"
      else if String.eqb name "left" then Some "right"
      else Some name
  | None => None
  end.

Definition swap_lr_result (r : result (gesture * R)) : result (gesture * R) :=
  match r with
  | Ok (g, c) => Ok (swap_lr g, c)
  | Raise e => Raise e
  end.

(** The x component of the normalised wrist-to-index-tip direction, and
    the planar thumb-tip-to-index-tip distance, of a full landmark set. *)
Definition direction_x (lm : list Landmark) : R :=
  fst (normalized (vsub (planar (point lm 8%Z)) (planar (point lm 0%Z)))).


(** The answer of the extension test on a full landmark set. *)
Definition extended (lm : list Landmark) (idx : Z) : Prop :=
  is_finger_extended lm idx = Ok true.

(** Index extended, middle, ring and pinky not. *)
Definition index_only (lm : list Landmark) : Prop :=
  extended lm 8 /\ ~ extended lm 12 /\ ~ extended lm 16 /\ ~ extended lm 20.

(** The guards of the rule ladder, each read on its own. *)
Module Guard.

Definition right (lm : list Landmark) : Prop :=
  index_only lm /\ direction_x lm > 0.5.

Definition left (lm : list Landmark) : Prop :=
  index_only lm /\ direction_x lm < -0.5.




End Guard.

(** A planar vector reflected in the vertical axis, and stretched. *)
Definition flipx (v : vec2) : vec2 := (- fst v, snd v).

(** A hand pointing to the right of the image: index finger stretched
    out, middle, ring and pinky curled back. *)
Module MoreHands.


End MoreHands.

(** ** The document handler ([src/pdf_handler.py]) *)

From Stdlib Require Import Sorting.Permutation Sorting.Sorted.

(** [l[i]] on a Python list: a negative index counts from the end,
    anything outside [-len, len) raises [IndexError]. *)
Definition list_getitem {A : Type} (l : list A) (i : Z) : result A :=
  let n := Z.of_nat (List.length l) in
  let j := if (i <? 0)%Z then (i + n)%Z else i in
  if ((0 <=? j) && (j <? n))%Z
  then match nth_error l (Z.to_nat j) with
       | Some x => Ok x
       | None => Raise IndexError
       end
  else Raise IndexError.

(** [s.endswith(suffix)]. *)
Definition endswith (s suffix : string) : bool :=
  let n := String.length s in
  let m := String.length suffix in
  if (m <=? n)%nat then String.eqb (substring (n - m) m s) suffix else false.

(** [list.sort()] on strings: the list in ascending order of code points,
    which is the order of the bytes of the strings.  Sorting by insertion
    gives the one sorted arrangement. *)
Fixpoint insert_sorted (x : string) (l : list string) : list string :=
  match l with
  | [] => [x]
  | y :: rest =>
      if String.leb x y then x :: l else y :: insert_sorted x rest
  end.

Definition sort_strings (l : list string) : list string :=
  fold_right insert_sorted [] l.

(** What a [PyPDF2.PdfReader] gives the handler: the texts of its pages,
    or [None] when reading [.pages] raises. *)
Record reader : Type := mkReader { pages : option (list string) }.

(** What the handler finds outside the program: [str.lower], whether
    [os.path.join(folder, name)] exists, what [PdfReader] does with that
    path ([None]: it raises), and what reading it as UTF-8 text gives
    ([None]: it raises). *)
Record World : Type := mkWorld {
  lower : string -> string;
  exists_in : string -> string -> bool;
  pdf_reader : string -> string -> option reader;
  read_text : string -> string -> option string
}.

(** The attributes of a [PDFHandler].  The cache of rendered pages,
    [page_images], belongs to the rendering functions and is not
    modelled. *)
Record PDFHandler : Type := mkPDFHandler {
  pdf_folder : string;
  pdf_files : list string;
  current_file_index : Z;
  current_pdf : option reader;
  current_page : Z;
  total_pages : Z
}.

Definition is_pdf_file (w : World) (filename : string) : bool :=
  endswith (lower w filename) ".pdf".

Definition is_text_file (w : World) (filename : string) : bool :=
  endswith (lower w filename) ".txt".

(** [scan_folder], given what [os.listdir] returns for the folder. *)
Definition scan_folder (w : World) (listing : list string) (h : PDFHandler)
  : PDFHandler :=
  {| pdf_folder := pdf_folder h;
     pdf_files :=
       sort_strings (filter (fun f => endswith (lower w f) ".pdf") listing);
     current_file_index := current_file_index h;
     current_pdf := current_pdf h;
     current_page := current_page h;
     total_pages := total_pages h |}.

(** The handler after [__init__]. *)
Definition new_handler (w : World) (listing : list string) : PDFHandler :=
  scan_folder w listing
    {| pdf_folder := "Lectii"; pdf_files := []; current_file_index := 0%Z;
       current_pdf := None; current_page := 0%Z; total_pages := 0%Z |}.

Definition nonempty {A : Type} (l : list A) : bool :=
  match l with [] => false | _ => true end.

Definition navigate (h : PDFHandler) (direction : Z)
  : result (option string * PDFHandler) :=
  if negb (nonempty (pdf_files h)) then Ok (None, h)
  else
    let h' :=
      {| pdf_folder := pdf_folder h;
         pdf_files := pdf_files h;
         current_file_index :=
           ((current_file_index h + direction)
              mod Z.of_nat (List.length (pdf_files h)))%Z;
         current_pdf := current_pdf h;
         current_page := current_page h;
         total_pages := total_pages h |} in
    name <- list_getitem (pdf_files h') (current_file_index h') ;;
    Ok (Some name, h').

Definition get_current_file (h : PDFHandler) : result (option string) :=
  if negb (nonempty (pdf_files h)) then Ok None
  else
    name <- list_getitem (pdf_files h) (current_file_index h) ;;
    Ok (Some name).

(** A [PdfReader] object is truthy. *)
Definition pdf_open (h : PDFHandler) : bool :=
  match current_pdf h with Some _ => true | None => false end.

Definition open_pdf (w : World) (h : PDFHandler) (filename : option string)
  : result (bool * PDFHandler) :=
  if negb (nonempty (pdf_files h)) then Ok (false, h)
  else
    name <- match filename with
            | None => list_getitem (pdf_files h) (current_file_index h)
            | Some f => Ok f
            end ;;
    if negb (exists_in w (pdf_folder h) name) then Ok (false, h)
    else
      match pdf_reader w (pdf_folder h) name with
      | None =>
          (* [PdfReader] raises after the previous reader was dropped *)
          Ok (false,
              {| pdf_folder := pdf_folder h; pdf_files := pdf_files h;
                 current_file_index := current_file_index h;
                 current_pdf := None;
                 current_page := current_page h;
                 total_pages := total_pages h |})
      | Some r =>
          match pages r with
          | None =>
              (* [len(self.current_pdf.pages)] raises *)
              Ok (false,
                  {| pdf_folder := pdf_folder h; pdf_files := pdf_files h;
                     current_file_index := current_file_index h;
                     current_pdf := Some r;
                     current_page := current_page h;
                     total_pages := total_pages h |})
          | Some ps =>
              Ok (true,
                  {| pdf_folder := pdf_folder h; pdf_files := pdf_files h;
                     current_file_index := current_file_index h;
                     current_pdf := Some r;
                     current_page := 0%Z;
                     total_pages := Z.of_nat (List.length ps) |})
          end
      end.

Definition close_pdf (h : PDFHandler) : bool * PDFHandler :=
  if pdf_open h
  then (true,
        {| pdf_folder := pdf_folder h; pdf_files := pdf_files h;
           current_file_index := current_file_index h;
           current_pdf := None; current_page := 0%Z; total_pages := 0%Z |})
  else (false, h).

Definition navigate_pdf (h : PDFHandler) (direction : Z) : bool * PDFHandler :=
  if negb (pdf_open h) then (false, h)
  else
    let new_page := (current_page h + direction)%Z in
    if ((0 <=? new_page) && (new_page <? total_pages h))%Z
    then (true,
          {| pdf_folder := pdf_folder h; pdf_files := pdf_files h;
             current_file_index := current_file_index h;
             current_pdf := current_pdf h;
             current_page := new_page;
             total_pages := total_pages h |})
    else (false, h).

(** [open_text_file]: the suffix test is case-sensitive here. *)
Definition open_text_file (w : World) (h : PDFHandler) (filename : string)
  : option string :=
  if negb (endswith filename ".txt") then None
  else read_text w (pdf_folder h) filename.

(** [direction] applied [n] times to the file list. *)
Fixpoint navigate_times (h : PDFHandler) (direction : Z) (n : nat)
  : result PDFHandler :=
  match n with
  | O => Ok h
  | S k =>
      r <- navigate h direction ;;
      navigate_times (snd r) direction k
  end.

(** Ascending order of two strings. *)
Definition str_le (a b : string) : Prop := String.leb a b = true.

(** The selection points into the file list. *)
Definition selection_valid (h : PDFHandler) : Prop :=
  (0 <= current_file_index h < Z.of_nat (List.length (pdf_files h)))%Z.

(** The page counter points into the open document. *)
Definition page_valid (h : PDFHandler) : Prop :=
  (0 <= current_page h < total_pages h)%Z.

(** ** Usage statistics ([src/utils.py]) *)

(** A dictionary with string keys and integer counts, in insertion
    order. *)
Definition counts : Type := list (string * Z).

(** [key in d]. *)
Definition has_key (d : counts) (key : string) : bool :=
  existsb (fun kv => String.eqb (fst kv) key) d.

(** [d[key] += 1] for a key that is present. *)
Definition increment (d : counts) (key : string) : counts :=
  map (fun kv => if String.eqb (fst kv) key then (fst kv, (snd kv + 1)%Z)
                 else kv) d.

(** [d[key]], for a key that is present; 0 stands in otherwise. *)
Definition count_of (d : counts) (key : string) : Z :=
  match find (fun kv => String.eqb (fst kv) key) d with
  | Some kv => snd kv
  | None => 0%Z
  end.

(** The sum of all counts. *)
Definition total_count (d : counts) : Z :=
  fold_right (fun kv acc => (snd kv + acc)%Z) 0%Z d.

(** The value column of the event log: a name or a duration. *)
Inductive value : Type :=
| VName (name : string)
| VTime (seconds : R).

(** One row appended to the CSV file by [log_event]: event type, value,
    success, context.  The first column, a wall-clock string, is not
    modelled. *)
Definition event_row : Type := (string * value * bool * string)%type.

(** The attributes of a [Stats] object, with the rows it has appended to
    its log file. *)
Record Stats : Type := mkStats {
  gesture_counts : counts;
  navigation_counts : counts;
  ollama_times : list R;
  events : list event_row
}.

Definition new_stats : Stats :=
  {| gesture_counts :=
       [("right", 0%Z); ("left", 0%Z); ("two_fingers", 0%Z); ("ok", 0%Z);
        ("palm", 0%Z)];
     navigation_counts :=
       [("menu_navigations", 0%Z); ("document_navigations", 0%Z)];
     ollama_times := [];
     events := [] |}.

Definition log_event (s : Stats) (event_type : string) (v : value)
           (success : bool) (context : string) : Stats :=
  {| gesture_counts := gesture_counts s;
     navigation_counts := navigation_counts s;
     ollama_times := ollama_times s;
     events := events s ++ [(event_type, v, success, context)] |}.

Definition stats_log_gesture (s : Stats) (g : string) (success : bool)
           (context : string) : Stats :=
  let s :=
    if has_key (gesture_counts s) g
    then {| gesture_counts := increment (gesture_counts s) g;
            navigation_counts := navigation_counts s;
            ollama_times := ollama_times s;
            events := events s |}
    else s in
  log_event s "gesture" (VName g) success context.

Definition log_navigation (s : Stats) (navigation_type : string)
           (success : bool) : Stats :=
  let s :=
    if has_key (navigation_counts s) navigation_type
    then {| gesture_counts := gesture_counts s;
            navigation_counts :=
              increment (navigation_counts s) navigation_type;
            ollama_times := ollama_times s;
            events := events s |}
    else s in
  log_event s "navigation" (VName navigation_type) success "".






(** The keys of [gesture_counts]. *)
Definition gesture_keys : list string :=
  ["right"; "left"; "two_fingers"; "ok"; "palm"].

(** The gestures of a list handed to the statistics one after the other,
    as [handle_gesture] does with the view as context. *)
Definition log_gestures (s : Stats) (gs : list (string * string)) : Stats :=
  fold_left (fun acc gc => stats_log_gesture acc (fst gc) true (snd gc)) gs s.

(** The label of an output that carries a gesture. *)
Definition label_of (o : output) : string :=
  match fst (fst o) with
  | Some name => name
  | None => ""
  end.

(** ** The on-screen log ([src/ui_manager.py]) *)

From Stdlib Require Import DecimalString.

(** [l[start:]] on a Python list. *)
Definition slice_from {A : Type} (l : list A) (start : Z) : list A :=
  let n := Z.of_nat (List.length l) in
  let s := if (start <? 0)%Z then Z.max 0 (start + n) else Z.min start n in
  skipn (Z.to_nat s) l.

(** The attributes of a [UIManager] the handlers use.  An entry of
    [log_messages] stands for the string ["[HH:MM:SS] " + message]; the
    clock prefix is not modelled.  Fonts, colours and the display are
    left out. *)
Record UI : Type := mkUI {
  current_view : string;
  log_messages : list string;
  max_log_messages : Z;
  show_exit_modal : bool
}.

Definition new_ui : UI :=
  {| current_view := "menu"; log_messages := []; max_log_messages := 10%Z;
     show_exit_modal := false |}.

Definition add_log (u : UI) (message : string) : UI :=
  let msgs := (log_messages u ++ [message])%list in
  let msgs :=
    if (max_log_messages u <? Z.of_nat (List.length msgs))%Z
    then slice_from msgs (- max_log_messages u)
    else msgs in
  {| current_view := current_view u; log_messages := msgs;
     max_log_messages := max_log_messages u;
     show_exit_modal := show_exit_modal u |}.

Definition set_view (u : UI) (view : string) : UI :=
  {| current_view := view; log_messages := log_messages u;
     max_log_messages := max_log_messages u;
     show_exit_modal := show_exit_modal u |}.

Definition set_exit_modal (u : UI) (showing : bool) : UI :=
  {| current_view := current_view u; log_messages := log_messages u;
     max_log_messages := max_log_messages u;
     show_exit_modal := showing |}.

Definition show_exit_confirmation (u : UI) : UI := set_exit_modal u true.
Definition hide_exit_confirmation (u : UI) : UI := set_exit_modal u false.

(** The last [n] elements of a list. *)
Definition last_n {A : Type} (n : nat) (l : list A) : list A :=
  skipn (List.length l - n) l.

(** ** The application ([src/main.py]) *)

(** The attributes of [EduGesture] that the gesture handlers read or
    write.  [threads_started] counts the calls of
    [threading.Thread(target=self.generate_with_ollama).start()]; what the
    thread does afterwards is not part of a handler call. *)
Record App : Type := mkApp {
  pdf_handler : PDFHandler;
  ui : UI;
  stats : Stats;
  running : bool;
  current_text : option string;
  text_page : Z;
  ollama_running : bool;
  threads_started : nat
}.

Definition with_ui (a : App) (u : UI) : App :=
  {| pdf_handler := pdf_handler a; ui := u; stats := stats a;
     running := running a; current_text := current_text a;
     text_page := text_page a; ollama_running := ollama_running a;
     threads_started := threads_started a |}.

Definition with_pdf (a : App) (h : PDFHandler) : App :=
  {| pdf_handler := h; ui := ui a; stats := stats a;
     running := running a; current_text := current_text a;
     text_page := text_page a; ollama_running := ollama_running a;
     threads_started := threads_started a |}.

Definition with_stats (a : App) (s : Stats) : App :=
  {| pdf_handler := pdf_handler a; ui := ui a; stats := s;
     running := running a; current_text := current_text a;
     text_page := text_page a; ollama_running := ollama_running a;
     threads_started := threads_started a |}.

Definition with_running (a : App) (b : bool) : App :=
  {| pdf_handler := pdf_handler a; ui := ui a; stats := stats a;
     running := b; current_text := current_text a;
     text_page := text_page a; ollama_running := ollama_running a;
     threads_started := threads_started a |}.

Definition with_text (a : App) (t : option string) : App :=
  {| pdf_handler := pdf_handler a; ui := ui a; stats := stats a;
     running := running a; current_text := t;
     text_page := text_page a; ollama_running := ollama_running a;
     threads_started := threads_started a |}.

Definition with_text_page (a : App) (p : Z) : App :=
  {| pdf_handler := pdf_handler a; ui := ui a; stats := stats a;
     running := running a; current_text := current_text a;
     text_page := p; ollama_running := ollama_running a;
     threads_started := threads_started a |}.

(** [self.ollama_running = True] followed by the start of the thread. *)
Definition start_ollama (a : App) : App :=
  {| pdf_handler := pdf_handler a; ui := ui a; stats := stats a;
     running := running a; current_text := current_text a;
     text_page := text_page a; ollama_running := true;
     threads_started := S (threads_started a) |}.

Definition log_msg (a : App) (message : string) : App :=
  with_ui a (add_log (ui a) message).

(** Truthiness of a string or [None]. *)
Definition truthy_str (s : option string) : bool :=
  match s with
  | Some t => negb (String.eqb t "")
  | None => false
  end.

(** [str(x)] inside an f-string, for a file name or [None], and for an
    integer. *)
Definition fmt (s : option string) : string :=
  match s with Some t => t | None => "None" end.

Definition fmt_int (z : Z) : string := NilZero.string_of_int (Z.to_int z).

(** The branch shared by both views: "two_fingers" while no generation is
    running. *)
Definition request_ollama (w : World) (a : App) : result App :=
  current_file <- get_current_file (pdf_handler a) ;;
  if truthy_str current_file && is_pdf_file w (fmt current_file)
  then Ok (log_msg (start_ollama a) "Generare cu Ollama începută...")
  else Ok (log_msg a "Selectați un fișier PDF pentru a genera rezumat și test").

Definition menu_navigate (a : App) (direction : Z) : result App :=
  r <- navigate (pdf_handler a) direction ;;
  let a := with_pdf a (snd r) in
  let a := log_msg a ("Selectat: " ++ fmt (fst r)) in
  Ok (with_stats a (log_navigation (stats a) "menu_navigations" true)).

Definition menu_open (w : World) (a : App) : result App :=
  current_file <- get_current_file (pdf_handler a) ;;
  if truthy_str current_file then
    let name := fmt current_file in
    if is_pdf_file w name then
      r <- open_pdf w (pdf_handler a) None ;;
      let a := with_pdf a (snd r) in
      if fst r then
        let a := log_msg a ("Deschis PDF: " ++ name) in
        let a := with_ui a (set_view (ui a) "document") in
        Ok (with_text a None)
      else Ok (log_msg a ("Eroare la deschiderea PDF: " ++ name))
    else if is_text_file w name then
      let a := with_text a (open_text_file w (pdf_handler a) name) in
      if truthy_str (current_text a) then
        let a := log_msg a ("Deschis Text: " ++ name) in
        let a := with_ui a (set_view (ui a) "document") in
        Ok (with_text_page a 0%Z)
      else Ok (log_msg a ("Eroare la deschiderea Text: " ++ name))
    else Ok (log_msg a ("Tip fișier nesuportat: " ++ name))
  else Ok (log_msg a "Niciun fișier selectat").

Definition handle_menu_gesture (w : World) (a : App) (g : string)
  : result App :=
  if show_exit_modal (ui a) then
    if String.eqb g "palm"
    then Ok (with_running
               (log_msg a "Aplicatie inchisa de catre utilizator") false)
    else Ok (log_msg (with_ui a (hide_exit_confirmation (ui a)))
                     "Iesire anulata")
  else if String.eqb g "palm" then
    Ok (log_msg (with_ui a (show_exit_confirmation (ui a)))
                "Confirmare iesire - folositi PALMA pentru a confirma")
  else
    let files := pdf_files (pdf_handler a) in
    current_file <- get_current_file (pdf_handler a) ;;
    if negb (nonempty files)
    then Ok (log_msg a "Nu exista fisiere in directorul Lectii/")
    else if String.eqb g "right" then menu_navigate a 1
    else if String.eqb g "left" then menu_navigate a (-1)
    else if String.eqb g "ok" then menu_open w a
    else if String.eqb g "two_fingers" && negb (ollama_running a)
    then request_ollama w a
    else Ok a.

Definition page_message (h : PDFHandler) : string :=
  "Pagina " ++ fmt_int (current_page h + 1) ++ " din "
  ++ fmt_int (total_pages h).

Definition document_turn (a : App) (direction : Z) : App :=
  let r := navigate_pdf (pdf_handler a) direction in
  let a := with_pdf a (snd r) in
  if fst r then
    let a := log_msg a (page_message (pdf_handler a)) in
    with_stats a (log_navigation (stats a) "document_navigations" true)
  else a.

Definition handle_document_gesture (w : World) (a : App) (g : string)
  : result App :=
  if String.eqb g "palm" then
    let r := close_pdf (pdf_handler a) in
    let a := with_pdf a (snd r) in
    if fst r then
      let a := with_ui a (set_view (ui a) "menu") in
      let a := log_msg a "Document închis" in
      Ok (with_text a None)
    else Ok a
  else if String.eqb g "right" then
    if truthy_str (current_text a) then
      let a := with_text_page a (text_page a + 1)%Z in
      Ok (with_stats a (log_navigation (stats a) "document_navigations" true))
    else Ok (document_turn a 1)
  else if String.eqb g "left" then
    if truthy_str (current_text a) then
      let a := with_text_page a (Z.max 0 (text_page a - 1)) in
      Ok (with_stats a (log_navigation (stats a) "document_navigations" true))
    else Ok (document_turn a (-1))
  else if String.eqb g "two_fingers" && negb (ollama_running a)
  then request_ollama w a
  else Ok a.

Definition handle_gesture (w : World) (a : App) (g : gesture) : result App :=
  if truthy g then
    let name := fmt g in
    let view := current_view (ui a) in
    let a := log_msg a ("Gest detectat: " ++ name ++ " (View: " ++ view ++ ")") in
    let a := with_stats a (stats_log_gesture (stats a) name true view) in
    if String.eqb (current_view (ui a)) "menu"
    then handle_menu_gesture w a name
    else handle_document_gesture w a name
  else Ok a.

(** The application before [main_loop], given the directory listing. *)
Definition new_app (w : World) (listing : list string) : App :=
  {| pdf_handler := new_handler w listing; ui := new_ui; stats := new_stats;
     running := false; current_text := None; text_page := 0%Z;
     ollama_running := false; threads_started := 0 |}.

(** The file list holds PDF names only and no text document is open. *)
Definition pdf_only (w : World) (a : App) : Prop :=
  Forall (fun f => is_pdf_file w f = true) (pdf_files (pdf_handler a)) /\
  truthy_str (current_text a) = false.

(** The page counter is 0 or a page of the document. *)
Definition page_in_document (h : PDFHandler) : Prop :=
  (0 <= current_page h)%Z /\
  (current_page h < total_pages h \/ current_page h = 0)%Z.

(** A world for examples: names are lower case already, every file
    exists, and every PDF has two pages. *)
Definition sample_world : World :=
  {| lower := fun s => s;
     exists_in := fun _ _ => true;
     pdf_reader := fun _ _ => Some (mkReader (Some ["one"; "two"]));
     read_text := fun _ _ => None |}.

(** The application in its main loop, two lessons in the folder. *)
Definition sample_app : App :=
  with_running (new_app sample_world ["b.pdf"; "notes.txt"; "a.pdf"]) true.

(** The same with the exit dialogue on the screen. *)
Definition asking_app : App :=
  with_ui sample_app (show_exit_confirmation (ui sample_app)).

(** * Basic facts *)

Section Comparisons.

Lemma Rltb_true_iff (a b : R) : Rltb a b = true <-> a < b.
Proof. unfold Rltb; destruct (Rlt_dec a b); split; intros; try easy. Qed.

Lemma Rltb_false_iff (a b : R) : Rltb a b = false <-> b <= a.
Proof.
  unfold Rltb; destruct (Rlt_dec a b); split; intros; try easy; lra.
Qed.

Lemma Rgtb_true_iff (a b : R) : Rgtb a b = true <-> b < a.
Proof. apply Rltb_true_iff. Qed.

Lemma Rgtb_false_iff (a b : R) : Rgtb a b = false <-> a <= b.
Proof. apply Rltb_false_iff. Qed.

Lemma Rltb_eq_iff (a b c d : R) : (a < b <-> c < d) -> Rltb a b = Rltb c d.
Proof.
  intros H. destruct (Rltb c d) eqn:E.
  - apply Rltb_true_iff, H, Rltb_true_iff, E.
  - apply Rltb_false_iff. apply Rltb_false_iff in E.
    destruct (Rlt_dec a b) as [L|L]; [apply H in L|]; lra.
Qed.

End Comparisons.

Section Planar.

Lemma sum_sqr_nonneg (x y : R) : 0 <= x * x + y * y.
Proof. nra. Qed.

Lemma dot_self_nonneg (a : vec2) : 0 <= dot a a.
Proof. destruct a as [x y]; apply sum_sqr_nonneg. Qed.

Lemma norm_nonneg (a : vec2) : 0 <= norm a.
Proof. apply sqrt_pos. Qed.

Lemma norm_sqr (a : vec2) : norm a * norm a = dot a a.
Proof. apply sqrt_sqrt, dot_self_nonneg. Qed.

Lemma dot_self_zero (a : vec2) : dot a a <= 0 -> a = (0, 0).
Proof.
  destruct a as [x y]; unfold dot; cbn [fst snd]; intros H.
  assert (x = 0) by nra. assert (y = 0) by nra. subst; reflexivity.
Qed.

Lemma dot_vdiv (a b : vec2) (k l : R) :
  k <> 0 -> l <> 0 -> dot (vdiv a k) (vdiv b l) = dot a b / (k * l).
Proof.
  intros; destruct a, b; unfold dot, vdiv; cbn [fst snd]; field; auto.
Qed.

(** The distance criterion without square roots. *)
Lemma distance_criterion_iff (a b : vec2) :
  Rgtb (norm a) (norm b * 0.9) = true <-> 81 * dot b b < 100 * dot a a.
Proof.
  rewrite Rgtb_true_iff.
  pose proof (norm_sqr a). pose proof (norm_sqr b).
  pose proof (norm_nonneg a). pose proof (norm_nonneg b).
  split; intros; nra.
Qed.

(** The direction criterion without square roots. *)
Lemma direction_criterion_iff (u v : vec2) :
  Rgtb (dot (normalized u) (normalized v)) 0.3 = true <->
  0 < dot u v /\ 9 * (dot u u * dot v v) < 100 * (dot u v * dot u v).
Proof.
  rewrite Rgtb_true_iff. unfold normalized.
  pose proof (norm_sqr u) as Hu. pose proof (norm_sqr v) as Hv.
  pose proof (norm_nonneg u) as Pu. pose proof (norm_nonneg v) as Pv.
  destruct (Rgtb (norm u) 0) eqn:Eu.
  - apply Rgtb_true_iff in Eu.
    destruct (Rgtb (norm v) 0) eqn:Ev.
    + apply Rgtb_true_iff in Ev.
      rewrite dot_vdiv by lra.
      assert (Hp : 0 < norm u * norm v) by nra.
      set (p := norm u * norm v) in *.
      assert (Hpp : p * p = dot u u * dot v v) by (unfold p; nra).
      set (d := dot u v) in *.
      split.
      * intros H.
        assert (0.3 * p < d).
        { apply (Rmult_lt_compat_r p) in H; [|assumption].
          unfold Rdiv in H. rewrite Rmult_assoc, Rinv_l in H by lra. lra. }
        split; nra.
      * intros [H1 H2].
        assert (0.3 * p < d) by nra.
        unfold Rdiv. apply (Rmult_lt_reg_r p); [assumption|].
        rewrite Rmult_assoc, Rinv_l by lra. lra.
    + apply Rgtb_false_iff in Ev.
      assert (Z0 : v = (0, 0)) by (apply dot_self_zero; nra).
      subst v. unfold dot; cbn [fst snd]. split; intros; lra.
  - apply Rgtb_false_iff in Eu.
    assert (Z0 : u = (0, 0)) by (apply dot_self_zero; nra).
    subst u. unfold dot at 1 3 5 6; cbn [fst snd]. split; intros; lra.
Qed.

End Planar.

(** * Indexing *)

Section Indexing.

Lemma getitem_at (lm : list Landmark) (i : Z) (p : Landmark) :
  (0 <= i)%Z -> nth_error lm (Z.to_nat i) = Some p -> getitem lm i = Ok p.
Proof.
  intros Hi Hn. unfold getitem.
  assert (Hlt : (Z.to_nat i < List.length lm)%nat)
    by (apply nth_error_Some; congruence).
  replace (i <? 0)%Z with false by (symmetry; apply Z.ltb_ge; lia).
  replace (0 <=? i)%Z with true by (symmetry; apply Z.leb_le; lia).
  replace (i <? Z.of_nat (List.length lm))%Z with true
    by (symmetry; apply Z.ltb_lt; lia).
  cbn [andb]. rewrite Hn. reflexivity.
Qed.

Lemma getitem_point (lm : list Landmark) (i : Z) :
  (0 <= i < Z.of_nat (List.length lm))%Z -> getitem lm i = Ok (point lm i).
Proof.
  intros Hi. apply getitem_at; [lia|].
  unfold point. apply nth_error_nth'. lia.
Qed.

Lemma point_at (lm : list Landmark) (i : Z) (p : Landmark) :
  nth_error lm (Z.to_nat i) = Some p -> point lm i = p.
Proof. intros H. unfold point. apply nth_error_nth, H. Qed.

Lemma getitem_short (lm : list Landmark) (i : Z) :
  (Z.of_nat (List.length lm) <= i)%Z -> getitem lm i = Raise IndexError.
Proof.
  intros Hi. unfold getitem.
  replace (i <? 0)%Z with false by (symmetry; apply Z.ltb_ge; lia).
  replace (i <? Z.of_nat (List.length lm))%Z with false
    by (symmetry; apply Z.ltb_ge; lia).
  rewrite andb_false_r. reflexivity.
Qed.

Lemma getitem_firstn (lm : list Landmark) (n : nat) (i : Z) :
  (0 <= i < Z.of_nat n)%Z -> (n <= List.length lm)%nat ->
  getitem (firstn n lm) i = getitem lm i.
Proof.
  intros Hi Hn.
  rewrite (getitem_point lm i) by lia.
  apply getitem_at; [lia|].
  rewrite nth_error_firstn.
  replace (Z.to_nat i <? n)%nat with true
    by (symmetry; apply Nat.ltb_lt; lia).
  unfold point. apply nth_error_nth'. lia.
Qed.




End Indexing.

(** * The finger table *)

Section Table.

Lemma joints_cases (idx ip mcp : Z) :
  Finger.joints idx = Some (ip, mcp) ->
  (idx, ip, mcp) = (4, 3, 2)%Z \/ (idx, ip, mcp) = (8, 7, 5)%Z \/
  (idx, ip, mcp) = (12, 11, 9)%Z \/ (idx, ip, mcp) = (16, 15, 13)%Z \/
  (idx, ip, mcp) = (20, 19, 17)%Z.
Proof.
  unfold Finger.joints.
  repeat match goal with
         | |- context [(?a =? ?b)%Z] => destruct (Z.eqb_spec a b)
         end; intros H; inversion H; subst; tauto.
Qed.



Lemma joints_range (idx ip mcp : Z) :
  Finger.joints idx = Some (ip, mcp) ->
  (0 < idx < 21 /\ 0 < ip < 21 /\ 0 < mcp < 21 /\ ip <> idx /\ mcp <> idx)%Z.
Proof.
  intros H. apply joints_cases in H.
  repeat destruct H as [H|H]; inversion H; subst; lia.
Qed.

End Table.

(** * What the extension test computes *)

Section Extension.

(** With its four landmarks at hand, the test is [extended_alg]. *)
Lemma is_finger_extended_alg (lm : list Landmark) (idx ip mcp : Z)
      (ptip pip pmcp pwrist : Landmark) :
  Finger.joints idx = Some (ip, mcp) ->
  getitem lm idx = Ok ptip -> getitem lm ip = Ok pip ->
  getitem lm mcp = Ok pmcp -> getitem lm 0%Z = Ok pwrist ->
  is_finger_extended lm idx =
  Ok (extended_alg (planar ptip) (planar pip) (planar pmcp) (planar pwrist)).
Proof.
  intros Hj Ht Hi Hm Hw. unfold is_finger_extended.
  rewrite Hj, Ht, Hi, Hm, Hw. cbn [bind]. f_equal.
  change (Rgtb (norm (vsub (planar ptip) (planar pwrist)))
               (norm (vsub (planar pip) (planar pwrist)) * 0.9)
          && Rgtb (dot (normalized (vsub (planar pmcp) (planar pwrist)))
                       (normalized (vsub (planar ptip) (planar pmcp)))) 0.3
          = extended_alg (planar ptip) (planar pip) (planar pmcp)
                         (planar pwrist)).
  unfold extended_alg.
  apply eq_true_iff_eq.
  rewrite !andb_true_iff, distance_criterion_iff, direction_criterion_iff,
    !Rltb_true_iff.
  tauto.
Qed.

Lemma is_finger_extended_21 (lm : list Landmark) (idx ip mcp : Z) :
  List.length lm = 21%nat -> Finger.joints idx = Some (ip, mcp) ->
  is_finger_extended lm idx =
  Ok (extended_alg (planar (point lm idx)) (planar (point lm ip))
                   (planar (point lm mcp)) (planar (point lm 0%Z))).
Proof.
  intros Hl Hj. pose proof (joints_range _ _ _ Hj).
  apply (is_finger_extended_alg lm idx ip mcp); auto;
    apply getitem_point; lia.
Qed.

Lemma is_finger_extended_off_table (lm : list Landmark) (idx : Z) :
  Finger.joints idx = None -> is_finger_extended lm idx = Ok false.
Proof. intros H. unfold is_finger_extended. rewrite H. reflexivity. Qed.

(** On a full landmark set the test always answers. *)
Lemma is_finger_extended_total (lm : list Landmark) (idx : Z) :
  List.length lm = 21%nat -> exists b, is_finger_extended lm idx = Ok b.
Proof.
  intros Hl. destruct (Finger.joints idx) as [[ip mcp]|] eqn:E.
  - eexists. apply is_finger_extended_21; eauto.
  - exists false. apply is_finger_extended_off_table, E.
Qed.

End Extension.

(** * The classifier on full landmark sets *)

Section Classifier.

Lemma norm_ltb (v : vec2) (c : R) :
  0 < c -> Rltb (norm v) c = Rltb (dot v v) (c * c).
Proof.
  intros Hc. apply Rltb_eq_iff.
  pose proof (norm_sqr v). pose proof (norm_nonneg v).
  split; intros; nra.
Qed.

Lemma truthy_six (g : gesture) (c : R) :
  In (g, c) six_labels -> g <> None -> truthy g = true.
Proof.
  cbn. intros H Hg.
  repeat destruct H as [H|H]; try contradiction; inversion H; subst;
    try reflexivity; congruence.
Qed.

End Classifier.

(** Opens [classify_gesture] on a set of 21 landmarks: the six lookups
    succeed and each extension test is replaced by a boolean. *)
Ltac open_classifier lm Hl :=
  unfold classify_gesture;
  rewrite !(getitem_point lm) by (rewrite Hl; lia);
  cbn [bind];
  let go i :=
    (let b := fresh "b" in
     let E := fresh "E" in
     destruct (is_finger_extended_total lm i Hl) as [b E];
     rewrite E; cbn [bind]) in
  go 4%Z; go 8%Z; go 12%Z; go 16%Z; go 20%Z.

(** With 21 landmarks every lookup succeeds, every extension test
    answers, and the rule ladder ends in one of its six returns. *)
Lemma classify_in_six (lm : list Landmark) :
  List.length lm = 21%nat ->
  exists g c, classify_gesture lm = Ok (g, c) /\ In (g, c) six_labels.
Proof.
  intros Hl. open_classifier lm Hl.
  repeat match goal with
         | |- context [if ?c then _ else _] => destruct c
         end;
    eexists; eexists; (split; [reflexivity|]); cbn; tauto.
Qed.

(** Settles comparisons between closed rational expressions. *)
Ltac Rbool :=
  repeat match goal with
         | |- context [Rltb ?a ?b] =>
             first [ rewrite (proj2 (Rltb_true_iff a b)) by lra
                   | rewrite (proj2 (Rltb_false_iff a b)) by lra ]
         end.

(** Evaluates the extension test of the finger with tip [i], mid joint
    [j] and base joint [k] on a concrete hand. *)
Ltac eval_finger lm i j k :=
  rewrite (is_finger_extended_alg lm i j k _ _ _ _ eq_refl
             (getitem_at lm i _ ltac:(lia) eq_refl)
             (getitem_at lm j _ ltac:(lia) eq_refl)
             (getitem_at lm k _ ltac:(lia) eq_refl)
             (getitem_at lm 0%Z _ ltac:(lia) eq_refl));
  unfold extended_alg, vsub, dot, planar, Hands.pt; cbn [lx ly fst snd];
  Rbool; cbn [andb].

Section ConcreteHands.

Import Hands.

Lemma palm_hand_fingers :
  is_finger_extended palm_hand 4 = Ok true /\
  is_finger_extended palm_hand 8 = Ok true /\
  is_finger_extended palm_hand 12 = Ok true /\
  is_finger_extended palm_hand 16 = Ok true /\
  is_finger_extended palm_hand 20 = Ok true.
Proof.
  repeat split.
  - eval_finger palm_hand 4%Z 3%Z 2%Z. reflexivity.
  - eval_finger palm_hand 8%Z 7%Z 5%Z. reflexivity.
  - eval_finger palm_hand 12%Z 11%Z 9%Z. reflexivity.
  - eval_finger palm_hand 16%Z 15%Z 13%Z. reflexivity.
  - eval_finger palm_hand 20%Z 19%Z 17%Z. reflexivity.
Qed.

Lemma pinch_hand_fingers :
  is_finger_extended pinch_hand 4 = Ok true /\
  is_finger_extended pinch_hand 8 = Ok true /\
  is_finger_extended pinch_hand 12 = Ok true /\
  is_finger_extended pinch_hand 16 = Ok true /\
  is_finger_extended pinch_hand 20 = Ok true.
Proof.
  repeat split.
  - eval_finger pinch_hand 4%Z 3%Z 2%Z. reflexivity.
  - eval_finger pinch_hand 8%Z 7%Z 5%Z. reflexivity.
  - eval_finger pinch_hand 12%Z 11%Z 9%Z. reflexivity.
  - eval_finger pinch_hand 16%Z 15%Z 13%Z. reflexivity.
  - eval_finger pinch_hand 20%Z 19%Z 17%Z. reflexivity.
Qed.

(** Runs the rule ladder once the five extension tests are known. *)
Ltac eval_rules lm F :=
  unfold classify_gesture;
  rewrite (getitem_at lm 4%Z _ ltac:(lia) eq_refl),
          (getitem_at lm 8%Z _ ltac:(lia) eq_refl),
          (getitem_at lm 12%Z _ ltac:(lia) eq_refl),
          (getitem_at lm 16%Z _ ltac:(lia) eq_refl),
          (getitem_at lm 20%Z _ ltac:(lia) eq_refl),
          (getitem_at lm 0%Z _ ltac:(lia) eq_refl);
  cbn [bind];
  destruct F as (-> & -> & -> & -> & ->);
  cbn [bind andb negb forallb];
  rewrite norm_ltb by lra;
  unfold vsub, dot, planar, pt; cbn [lx ly fst snd];
  Rbool; cbn [andb].

Lemma classify_palm_hand : classify_gesture palm_hand = Ok (Some "palm", 0.9).
Proof.
  pose proof palm_hand_fingers as F. eval_rules palm_hand F. reflexivity.
Qed.

Lemma classify_pinch_hand : classify_gesture pinch_hand = Ok (Some "ok", 0.85).
Proof.
  pose proof pinch_hand_fingers as F. eval_rules pinch_hand F. reflexivity.
Qed.

End ConcreteHands.

(** * Malformed input *)

Section WrongLength.

Lemma classify_short (lm : list Landmark) :
  (List.length lm < 21)%nat -> classify_gesture lm = Raise IndexError.
Proof.
  intros Hl. unfold classify_gesture.
  rewrite (getitem_short lm 20) by lia.
  repeat match goal with
         | |- bind ?m _ = _ => destruct m as [?|[]]; cbn [bind]; auto
         end.
Qed.

Lemma is_finger_extended_firstn (lm : list Landmark) (idx : Z) :
  (21 <= List.length lm)%nat ->
  is_finger_extended (firstn 21 lm) idx = is_finger_extended lm idx.
Proof.
  intros Hl. unfold is_finger_extended.
  destruct (Finger.joints idx) as [[ip mcp]|] eqn:E; [|reflexivity].
  pose proof (joints_range _ _ _ E).
  rewrite !(getitem_firstn lm 21) by lia. reflexivity.
Qed.

Lemma classify_firstn (lm : list Landmark) :
  (21 <= List.length lm)%nat ->
  classify_gesture lm = classify_gesture (firstn 21 lm).
Proof.
  intros Hl. unfold classify_gesture.
  rewrite !(getitem_firstn lm 21) by lia.
  rewrite !is_finger_extended_firstn by lia. reflexivity.
Qed.

(** A set of 22 landmarks is classified like its first 21. *)
Lemma classify_long_hand :
  classify_gesture (Hands.palm_hand ++ [Hands.pt 0 0]) = Ok (Some "palm", 0.9).
Proof.
  rewrite classify_firstn by (cbn; lia). exact classify_palm_hand.
Qed.

(** C1, as stated, fails: on the empty landmark array, whose length is not
    21, the classifier does not return "no gesture" but raises
    [IndexError] at [landmarks[4]]. *)
Lemma classify_empty_raises :
  List.length (@nil Landmark) <> 21%nat /\
  classify_gesture [] = Raise IndexError /\
  classify_gesture [] <> Ok (None, 0).
Proof.
  split; [cbn; lia|]. split; [reflexivity|discriminate].
Qed.

(** C1, amended: [_classify_gesture] has no length check.  On an input
    whose length is not 21 it either has fewer than 21 landmarks and the
    call raises [IndexError], or it has more and the result is that of the
    first 21 landmarks, the others being ignored. *)
Theorem classify_wrong_length (lm : list Landmark) :
  List.length lm <> 21%nat ->
  ((List.length lm < 21)%nat /\ classify_gesture lm = Raise IndexError) \/
  ((21 < List.length lm)%nat /\
   classify_gesture lm = classify_gesture (firstn 21 lm)).
Proof.
  intros Hl.
  destruct (Nat.lt_ge_cases (List.length lm) 21) as [Hs|Hg].
  - left. split; [assumption|]. apply classify_short, Hs.
  - right. split; [lia|]. apply classify_firstn, Hg.
Qed.

Lemma classify_wrong_length_witness :
  List.length (@nil Landmark) <> 21%nat /\
  (((List.length (@nil Landmark) < 21)%nat /\
    classify_gesture [] = Raise IndexError) \/
   ((21 < List.length (@nil Landmark))%nat /\
    classify_gesture [] = classify_gesture (firstn 21 []))).
Proof.
  split; [cbn; lia|]. apply (classify_wrong_length []). cbn; lia.
Defined.

End WrongLength.

(** * The extension test against the specification *)

Section ExtensionSpec.

Lemma spec_distance_norm (p q : Landmark) :
  Spec.distance p q = norm (vsub (planar p) (planar q)).
Proof.
  unfold Spec.distance, norm, dot, vsub, planar; cbn [fst snd].
  f_equal; ring.
Qed.






End ExtensionSpec.

(** * Properties of the rule ladder *)

Section Rules.

(** C6: on every set of 21 landmarks [_classify_gesture] returns, without
    raising, one label with its confidence, and the pair is one of the
    six the specification lists: right, left, two_fingers, ok, palm (0.85
    or 0.9 as the rule says) or no gesture with confidence 0. *)
Theorem classify_total_six (lm : list Landmark) :
  List.length lm = 21%nat ->
  exists g c, classify_gesture lm = Ok (g, c) /\ In (g, c) six_labels.
Proof.
  intros Hl. destruct (classify_in_six lm Hl) as (g & c & E & Hin).
  exists g, c. split; assumption.
Qed.

Lemma classify_total_six_witness :
  List.length Hands.palm_hand = 21%nat /\
  exists g c, classify_gesture Hands.palm_hand = Ok (g, c) /\
              In (g, c) six_labels.
Proof.
  split; [reflexivity|]. apply (classify_total_six Hands.palm_hand).
  reflexivity.
Defined.



End Rules.

(** * Depth *)

Section Depth.

Lemma same_xy_point (lm1 lm2 : list Landmark) (i : Z) :
  Forall2 same_xy lm1 lm2 -> planar (point lm1 i) = planar (point lm2 i).
Proof.
  unfold point. generalize (Z.to_nat i) as n.
  intros n H; revert n.
  induction H as [|p q l1 l2 [Hx Hy] _ IH]; intros [|n]; cbn [nth];
    try reflexivity.
  - unfold planar. congruence.
  - apply IH.
Qed.

Lemma is_finger_extended_xy (lm1 lm2 : list Landmark) (idx : Z) :
  List.length lm1 = 21%nat -> List.length lm2 = 21%nat ->
  Forall2 same_xy lm1 lm2 ->
  is_finger_extended lm1 idx = is_finger_extended lm2 idx.
Proof.
  intros H1 H2 H.
  destruct (Finger.joints idx) as [[ip mcp]|] eqn:E.
  - rewrite (is_finger_extended_21 lm1 idx ip mcp H1 E),
            (is_finger_extended_21 lm2 idx ip mcp H2 E).
    rewrite !(same_xy_point lm1 lm2) by assumption. reflexivity.
  - rewrite !is_finger_extended_off_table by assumption. reflexivity.
Qed.

(** C9: two sets of 21 landmarks that agree on the x and y of every point
    get the same (label, confidence) from the classifier, and the same
    answer from every extension test, whatever their z coordinates. *)
Theorem classify_depth_invariant (lm1 lm2 : list Landmark) :
  List.length lm1 = 21%nat -> List.length lm2 = 21%nat ->
  Forall2 same_xy lm1 lm2 ->
  classify_gesture lm1 = classify_gesture lm2 /\
  forall idx, is_finger_extended lm1 idx = is_finger_extended lm2 idx.
Proof.
  intros H1 H2 H. split.
  - unfold classify_gesture.
    rewrite !(getitem_point lm1) by (rewrite H1; lia).
    rewrite !(getitem_point lm2) by (rewrite H2; lia).
    cbn [bind].
    rewrite !(is_finger_extended_xy lm1 lm2) by assumption.
    rewrite !(same_xy_point lm1 lm2) by assumption. reflexivity.
  - intros idx. apply is_finger_extended_xy; assumption.
Qed.

Lemma classify_depth_invariant_witness :
  Forall2 same_xy Hands.palm_hand Hands.deep_palm_hand /\
  point Hands.palm_hand 8 <> point Hands.deep_palm_hand 8 /\
  classify_gesture Hands.palm_hand = classify_gesture Hands.deep_palm_hand.
Proof.
  assert (F : Forall2 same_xy Hands.palm_hand Hands.deep_palm_hand).
  { unfold Hands.deep_palm_hand, Hands.palm_hand. cbn [map].
    repeat constructor. }
  split; [exact F|]. split.
  - rewrite (point_at Hands.palm_hand 8 _ eq_refl),
            (point_at Hands.deep_palm_hand 8 _ eq_refl).
    unfold Hands.pt; cbn [lx ly lz].
    intros E. injection E as E. lra.
  - apply (classify_depth_invariant Hands.palm_hand Hands.deep_palm_hand
             eq_refl eq_refl F).
Defined.

End Depth.

(** * Moving a fingertip outward *)

Section Monotone.

Lemma extended_alg_advance (tip ip mcp wrist : Landmark) (s z : R) :
  0 < s ->
  extended_alg (planar tip) (planar ip) (planar mcp) (planar wrist) = true ->
  extended_alg (planar (advance tip mcp s z)) (planar ip) (planar mcp)
               (planar wrist) = true /\
  Spec.distance tip wrist < Spec.distance (advance tip mcp s z) wrist.
Proof.
  intros Hs. unfold extended_alg. cbv zeta.
  rewrite !andb_true_iff, !Rltb_true_iff.
  rewrite !spec_distance_norm.
  unfold norm, advance, planar, vsub, dot; cbn [lx ly fst snd].
  set (a := lx mcp - lx wrist). set (b := ly mcp - ly wrist).
  set (c := lx tip - lx mcp). set (d := ly tip - ly mcp).
  replace (lx tip - lx wrist) with (a + c) by (unfold a, c; ring).
  replace (ly tip - ly wrist) with (b + d) by (unfold b, d; ring).
  replace (lx tip + s * c - lx wrist) with (a + c + s * c)
    by (unfold a, c; ring).
  replace (ly tip + s * d - ly wrist) with (b + d + s * d)
    by (unfold b, d; ring).
  replace (lx tip + s * c - lx mcp) with ((1 + s) * c) by (unfold c; ring).
  replace (ly tip + s * d - ly mcp) with ((1 + s) * d) by (unfold d; ring).
  intros (Hd & Hp & Hc).
  assert (Hsp : 0 < s * (a * c + b * d)) by (apply Rmult_lt_0_compat; lra).
  assert (Hv : 0 <= c * c + d * d) by nra.
  assert (Hsv : 0 <= s * (c * c + d * d)) by (apply Rmult_le_pos; lra).
  assert (Hssv : 0 <= s * (s * (c * c + d * d)))
    by (apply Rmult_le_pos; lra).
  assert (Hfar : (a + c) * (a + c) + (b + d) * (b + d) <
                 (a + c + s * c) * (a + c + s * c) +
                 (b + d + s * d) * (b + d + s * d)) by nra.
  assert (Hk : 0 < (1 + s) * (1 + s)) by nra.
  repeat split.
  - lra.
  - replace (a * ((1 + s) * c) + b * ((1 + s) * d))
      with ((1 + s) * (a * c + b * d)) by ring.
    apply Rmult_lt_0_compat; lra.
  - apply (Rmult_lt_compat_l _ _ _ Hk) in Hc.
    replace (9 * ((a * a + b * b) *
                  ((1 + s) * c * ((1 + s) * c) + (1 + s) * d * ((1 + s) * d))))
      with ((1 + s) * (1 + s) * (9 * ((a * a + b * b) * (c * c + d * d))))
      by ring.
    replace (100 * ((a * ((1 + s) * c) + b * ((1 + s) * d)) *
                    (a * ((1 + s) * c) + b * ((1 + s) * d))))
      with ((1 + s) * (1 + s) *
            (100 * ((a * c + b * d) * (a * c + b * d)))) by ring.
    exact Hc.
  - apply sqrt_lt_1; try apply sum_sqr_nonneg. exact Hfar.
Qed.

(** On the ray from the base joint through the tip, an extended finger's
    tip gets farther from the wrist exactly when it moves outward: the two
    readings of "moved strictly farther along the finger" agree. *)
Lemma farther_iff_outward (tip ip mcp wrist : Landmark) (s z : R) :
  extended_alg (planar tip) (planar ip) (planar mcp) (planar wrist) = true ->
  -1 < s ->
  (Spec.distance tip wrist < Spec.distance (advance tip mcp s z) wrist
   <-> 0 < s).
Proof.
  intros He Hs. split.
  - intros Hf. destruct (Rlt_le_dec 0 s) as [Hp|Hn]; [exact Hp|exfalso].
    revert He Hf. unfold extended_alg. cbv zeta.
    rewrite !andb_true_iff, !Rltb_true_iff, !spec_distance_norm.
    unfold norm, advance, planar, vsub, dot; cbn [lx ly fst snd].
    set (a := lx mcp - lx wrist). set (b := ly mcp - ly wrist).
    set (c := lx tip - lx mcp). set (d := ly tip - ly mcp).
    replace (lx tip - lx wrist) with (a + c) by (unfold a, c; ring).
    replace (ly tip - ly wrist) with (b + d) by (unfold b, d; ring).
    replace (lx tip + s * c - lx wrist) with (a + c + s * c)
      by (unfold a, c; ring).
    replace (ly tip + s * d - ly wrist) with (b + d + s * d)
      by (unfold b, d; ring).
    intros (_ & Hp & _) Hf.
    apply sqrt_lt_0 in Hf; try apply sum_sqr_nonneg.
    pose proof (sum_sqr_nonneg c d) as Hv.
    assert (H1 : 0 <= (- s) * (a * c + b * d))
      by (apply Rmult_le_pos; lra).
    assert (H2 : 0 <= (- s) * ((2 + s) * (c * c + d * d))).
    { apply Rmult_le_pos; [lra|]. apply Rmult_le_pos; lra. }
    nra.
  - intros Hp. apply (extended_alg_advance tip ip mcp wrist s z Hp He).
Qed.



End Monotone.

(** * The cooldown gate *)

Section Gate.

Lemma classify_some_truthy (lm : list Landmark) (g : string) (c : R) :
  classify_gesture lm = Ok (Some g, c) -> truthy (Some g) = true.
Proof.
  intros H.
  destruct (Nat.lt_ge_cases (List.length lm) 21) as [Hs|Hg].
  - rewrite (classify_short lm Hs) in H. discriminate.
  - assert (L : List.length (firstn 21 lm) = 21%nat)
      by (rewrite length_firstn; lia).
    destruct (classify_in_six _ L) as (g' & c' & E & Hin).
    rewrite <- (classify_firstn lm Hg), H in E. injection E as <- <-.
    apply (truthy_six _ _ Hin). discriminate.
Qed.

(** The three ways out of the loop body for a frame with one hand. *)
Lemma detect_one_hand (d : detector) (lm : hand) (now : R) (g : gesture) (c : R) :
  classify_gesture lm = Ok (g, c) ->
  detect_gesture d (one_hand lm now) =
  if Rltb (now - gesture_timestamp d) (gesture_cooldown d)
  then Ok ((None, Some lm, 0), d)
  else if truthy g
  then Ok ((g, Some lm, c),
           log_gesture {| last_gesture := g;
                          gesture_timestamp := now;
                          gesture_cooldown := gesture_cooldown d;
                          log := log d |} g c true)
  else Ok ((None, None, 0), d).
Proof.
  intros H. unfold one_hand. cbn [detect_gesture]. rewrite H. cbn [bind].
  reflexivity.
Qed.

Lemma log_gesture_fields (d : detector) (g : gesture) (c : R) (b : bool) :
  last_gesture (log_gesture d g c b) = last_gesture d /\
  gesture_timestamp (log_gesture d g c b) = gesture_timestamp d /\
  gesture_cooldown (log_gesture d g c b) = gesture_cooldown d.
Proof. cbn; auto. Qed.

(** The classifier's exception leaves [detect_gesture] as it is. *)
Lemma detect_gesture_short_raises (d : detector) (lm : hand) (now : R)
      (rest : frame) :
  (List.length lm < 21)%nat ->
  detect_gesture d ((lm, now) :: rest) = Raise IndexError.
Proof.
  intros Hl. cbn [detect_gesture]. rewrite (classify_short lm Hl).
  reflexivity.
Qed.

(** A call either leaves the detector as it was and reports no gesture,
    or reports one and moves the timestamp on by a cooldown at least. *)
Lemma detect_gesture_inv (f : frame) (d d' : detector) (o : output) :
  detect_gesture d f = Ok (o, d') ->
  gesture_cooldown d' = gesture_cooldown d /\
  ((emitted o = false /\ d' = d) \/
   (emitted o = true /\
    gesture_cooldown d <= gesture_timestamp d' - gesture_timestamp d)).
Proof.
  induction f as [|[lm now] rest IH]; cbn [detect_gesture]; intros H.
  - injection H as <- <-. auto.
  - destruct (classify_gesture lm) as [[g c]|e]; cbn [bind] in H;
      [|discriminate].
    destruct (Rltb _ _) eqn:C.
    + injection H as <- <-. auto.
    + destruct (truthy g) eqn:T; [|apply IH, H].
      injection H as <- <-.
      destruct (log_gesture_fields
                  {| last_gesture := g; gesture_timestamp := now;
                     gesture_cooldown := gesture_cooldown d;
                     log := log d |} g c true) as (_ & -> & ->).
      cbn. split; [reflexivity|]. right. split; [exact T|].
      apply Rltb_false_iff, C.
Qed.

Lemma run_inv (fs : list frame) (d d' : detector) (outs : list output) :
  run d fs = Ok (outs, d') ->
  0 <= gesture_cooldown d ->
  gesture_cooldown d' = gesture_cooldown d /\
  gesture_timestamp d <= gesture_timestamp d'.
Proof.
  revert d outs; induction fs as [|f fs IH]; cbn [run]; intros d outs H Hc.
  - injection H as <- <-. split; [reflexivity|lra].
  - destruct (detect_gesture d f) as [[o d1]|e] eqn:E; cbn [bind] in H;
      [|discriminate].
    cbn [snd fst] in H.
    destruct (run d1 fs) as [[os d2]|e] eqn:E2; cbn [bind] in H;
      [|discriminate].
    injection H as <- <-.
    destruct (detect_gesture_inv _ _ _ _ E) as [Hk Hd].
    destruct (IH _ _ E2) as [Hk2 Ht2]; [rewrite Hk; exact Hc|].
    cbn [snd]. split; [congruence|].
    destruct Hd as [[_ ->]|[_ Hd]]; lra.
Qed.

Lemma run_quiet (fs : list frame) (d d' : detector) (outs : list output) :
  run d fs = Ok (outs, d') -> quiet outs = true -> d' = d.
Proof.
  revert d outs; induction fs as [|f fs IH]; cbn [run]; intros d outs H Hq.
  - injection H as <- <-. reflexivity.
  - destruct (detect_gesture d f) as [[o d1]|e] eqn:E; cbn [bind] in H;
      [|discriminate].
    cbn [snd fst] in H.
    destruct (run d1 fs) as [[os d2]|e] eqn:E2; cbn [bind] in H;
      [|discriminate].
    injection H as <- <-. cbn [snd].
    unfold quiet in Hq. cbn [forallb fst] in Hq.
    apply andb_true_iff in Hq as [Ho Hos]. apply negb_true_iff in Ho.
    destruct (detect_gesture_inv _ _ _ _ E) as [_ [[_ ->]|[Hem _]]];
      [|congruence].
    apply (IH _ _ E2 Hos).
Qed.

(** The caller's view of a call depends on the detector through its
    timestamp and its cooldown only. *)
Lemma outcome_detect (f : frame) (d d' : detector) :
  gesture_timestamp d = gesture_timestamp d' ->
  gesture_cooldown d = gesture_cooldown d' ->
  outcome (detect_gesture d f) = outcome (detect_gesture d' f).
Proof.
  intros Ht Hc. induction f as [|[lm now] rest IH]; cbn [detect_gesture].
  - reflexivity.
  - destruct (classify_gesture lm) as [[g c]|e]; cbn [bind]; [|reflexivity].
    rewrite <- Ht, <- Hc.
    destruct (Rltb _ _); [reflexivity|].
    destruct (truthy g); [reflexivity|exact IH].
Qed.

(** Inside the cooldown window a hand that classifies is returned with
    no gesture, and the detector is not touched. *)
Lemma suppressed_in_cooldown (d : detector) (lm : hand) (now : R)
      (g : gesture) (c : R) :
  classify_gesture lm = Ok (g, c) ->
  now - gesture_timestamp d < gesture_cooldown d ->
  detect_gesture d (one_hand lm now) = Ok ((None, Some lm, 0), d).
Proof.
  intros Hc Hlt. rewrite (detect_one_hand d lm now _ _ Hc).
  apply Rltb_true_iff in Hlt. rewrite Hlt. reflexivity.
Qed.

(** C5: whenever the hand of a frame classifies to a gesture and the
    frame's clock reading minus the stored timestamp is below the
    cooldown of 0.8 s, [detect_gesture] returns no gesture (with
    confidence 0) and the detector is left exactly as it was: neither
    [gesture_timestamp] nor [last_gesture] (nor the log) changes. *)
Theorem cooldown_suppresses (d : detector) (lm : hand) (now : R)
        (g : string) (c : R) :
  gesture_cooldown d = 0.8 ->
  classify_gesture lm = Ok (Some g, c) ->
  now - gesture_timestamp d < 0.8 ->
  detect_gesture d (one_hand lm now) = Ok ((None, Some lm, 0), d).
Proof.
  intros Hk Hc Hlt.
  apply (suppressed_in_cooldown _ _ _ _ _ Hc). rewrite Hk. exact Hlt.
Qed.

Lemma init_emits_palm :
  detect_gesture init (one_hand Hands.palm_hand 1) =
  Ok ((Some "palm", Some Hands.palm_hand, 0.9), after_palm).
Proof.
  rewrite (detect_one_hand _ _ _ _ _ classify_palm_hand).
  cbn [init gesture_timestamp gesture_cooldown]. Rbool. reflexivity.
Qed.

Lemma after_palm_suppresses_pinch :
  detect_gesture after_palm (one_hand Hands.pinch_hand 1.5) =
  Ok ((None, Some Hands.pinch_hand, 0), after_palm).
Proof.
  apply (suppressed_in_cooldown _ _ _ _ _ classify_pinch_hand).
  cbn [after_palm gesture_timestamp gesture_cooldown]. lra.
Qed.

Lemma cooldown_suppresses_witness :
  detect_gesture after_palm (one_hand Hands.pinch_hand 1.5) =
  Ok ((None, Some Hands.pinch_hand, 0), after_palm).
Proof.
  apply (cooldown_suppresses after_palm Hands.pinch_hand 1.5 "ok" 0.85).
  - reflexivity.
  - exact classify_pinch_hand.
  - cbn [after_palm gesture_timestamp]. lra.
Defined.

End Gate.

Section GateClaims.

(** An emitting call on a one-hand frame stamps the detector with that
    frame's clock reading. *)
Lemma emission_stamp (d d' : detector) (lm : hand) (t : R) (o : output) :
  detect_gesture d (one_hand lm t) = Ok (o, d') ->
  emitted o = true ->
  gesture_timestamp d' = t /\ gesture_cooldown d' = gesture_cooldown d /\
  last_gesture d' = fst (fst o).
Proof.
  intros H He.
  destruct (classify_gesture lm) as [[g c]|e] eqn:C.
  - rewrite (detect_one_hand d lm t g c C) in H.
    destruct (Rltb _ _).
    + injection H as <- <-. discriminate.
    + destruct (truthy g) eqn:T.
      * injection H as <- <-.
        destruct (log_gesture_fields
                    {| last_gesture := g; gesture_timestamp := t;
                       gesture_cooldown := gesture_cooldown d;
                       log := log d |} g c true) as (-> & -> & ->).
        cbn. auto.
      * injection H as <- <-. discriminate.
  - unfold one_hand in H. cbn [detect_gesture] in H. rewrite C in H.
    discriminate.
Qed.

(** C8: after [detect_gesture] has emitted a gesture at clock reading [t],
    and after any run of frames none of which emitted, a frame read at
    [t + 0.8 + eps] with [eps > 0] whose hand classifies to the same
    gesture is emitted again with its confidence, and the stored
    timestamp becomes the new frame's clock reading. *)
Theorem cooldown_release (d d1 d2 : detector) (lm lm' : hand) (t eps : R)
        (g : string) (c c' : R) (mid : list frame) (outs : list output) :
  gesture_cooldown d = 0.8 ->
  detect_gesture d (one_hand lm t) = Ok ((Some g, Some lm, c), d1) ->
  run d1 mid = Ok (outs, d2) ->
  quiet outs = true ->
  classify_gesture lm' = Ok (Some g, c') ->
  0 < eps ->
  exists d3,
    detect_gesture d2 (one_hand lm' (t + 0.8 + eps)) =
      Ok ((Some g, Some lm', c'), d3) /\
    gesture_timestamp d3 = t + 0.8 + eps /\
    last_gesture d3 = Some g.
Proof.
  intros Hk H1 Hrun Hq Hc Heps.
  pose proof (classify_some_truthy _ _ _ Hc) as T.
  destruct (emission_stamp _ _ _ _ _ H1 T) as (Hts & Hk1 & _).
  rewrite (run_quiet _ _ _ _ Hrun Hq).
  rewrite (detect_one_hand d1 lm' _ _ _ Hc), Hts, Hk1, Hk.
  replace (Rltb (t + 0.8 + eps - t) 0.8) with false
    by (symmetry; apply Rltb_false_iff; lra).
  rewrite T. eexists. split; [reflexivity|].
  destruct (log_gesture_fields
              {| last_gesture := Some g; gesture_timestamp := t + 0.8 + eps;
                 gesture_cooldown := 0.8; log := log d1 |} (Some g) c' true)
    as (-> & -> & _).
  cbn. auto.
Qed.

Lemma cooldown_release_witness :
  exists d3,
    detect_gesture after_palm
                   (one_hand Hands.palm_hand (1 + 0.8 + 0.001)) =
      Ok ((Some "palm", Some Hands.palm_hand, 0.9), d3) /\
    gesture_timestamp d3 = 1 + 0.8 + 0.001 /\
    last_gesture d3 = Some "palm".
Proof.
  apply (cooldown_release init after_palm after_palm
           Hands.palm_hand Hands.palm_hand 1 0.001 "palm" 0.9 0.9 [] []).
  - reflexivity.
  - exact init_emits_palm.
  - reflexivity.
  - reflexivity.
  - exact classify_palm_hand.
  - lra.
Defined.

(** C2: take a detector with the cooldown of 0.8 s, a frame at [t1] and a
    later frame at [t2], less than 0.8 s apart, whose hands both classify
    to a gesture, with any frames in between.  Then at most one of the
    two frames is emitted.  Whether a frame with a gesture is emitted is
    decided by its clock reading and the stored timestamp alone: it is
    emitted exactly when [now - gesture_timestamp] is not below 0.8,
    whatever the label, so that two hands with different labels seen by
    the same detector at the same time are both emitted or both
    suppressed. *)
Theorem cooldown_global (d : detector) :
  gesture_cooldown d = 0.8 ->
  (forall lm1 lm2 t1 t2 g1 c1 g2 c2 mid o1 d1 outs d2 o2 d3,
      classify_gesture lm1 = Ok (Some g1, c1) ->
      classify_gesture lm2 = Ok (Some g2, c2) ->
      t1 < t2 -> t2 - t1 < 0.8 ->
      detect_gesture d (one_hand lm1 t1) = Ok (o1, d1) ->
      run d1 mid = Ok (outs, d2) ->
      detect_gesture d2 (one_hand lm2 t2) = Ok (o2, d3) ->
      emitted o1 && emitted o2 = false) /\
  (forall lm now g c o d',
      classify_gesture lm = Ok (Some g, c) ->
      detect_gesture d (one_hand lm now) = Ok (o, d') ->
      emitted o = negb (Rltb (now - gesture_timestamp d) 0.8)) /\
  (forall lmA lmB now gA cA gB cB oA dA oB dB,
      classify_gesture lmA = Ok (Some gA, cA) ->
      classify_gesture lmB = Ok (Some gB, cB) ->
      detect_gesture d (one_hand lmA now) = Ok (oA, dA) ->
      detect_gesture d (one_hand lmB now) = Ok (oB, dB) ->
      emitted oA = emitted oB).
Proof.
  intros Hk.
  assert (Decision : forall d0 lm now g c o d',
      gesture_cooldown d0 = 0.8 ->
      classify_gesture lm = Ok (Some g, c) ->
      detect_gesture d0 (one_hand lm now) = Ok (o, d') ->
      emitted o = negb (Rltb (now - gesture_timestamp d0) 0.8)).
  { intros d0 lm now g c o d' Hk0 Hc H.
    rewrite (detect_one_hand d0 lm now _ _ Hc), Hk0 in H.
    rewrite (classify_some_truthy _ _ _ Hc) in H.
    destruct (Rltb _ _); injection H as <- <-; [reflexivity|].
    unfold emitted. cbn [fst negb].
    apply (classify_some_truthy _ _ _ Hc). }
  split; [|split].
  - intros lm1 lm2 t1 t2 g1 c1 g2 c2 mid o1 d1 outs d2 o2 d3
           Hc1 Hc2 Hlt Hnear H1 Hrun H2.
    destruct (emitted o1) eqn:E1; [cbn [andb]|reflexivity].
    destruct (emission_stamp _ _ _ _ _ H1 E1) as (Hts & Hk1 & _).
    destruct (run_inv _ _ _ _ Hrun) as [Hk2 Hmono]; [rewrite Hk1, Hk; lra|].
    rewrite (Decision d2 lm2 t2 g2 c2 o2 d3) by congruence.
    replace (Rltb (t2 - gesture_timestamp d2) 0.8) with true; [reflexivity|].
    symmetry. apply Rltb_true_iff. lra.
  - intros lm now g c o d' Hc H. apply (Decision d lm now g c o d'); auto.
  - intros lmA lmB now gA cA gB cB oA dA oB dB HcA HcB HA HB.
    rewrite (Decision d lmA now gA cA oA dA), (Decision d lmB now gB cB oB dB);
      auto.
Qed.

(** A palm emitted at 1 s, then an OK sign at 1.5 s: the OK is suppressed. *)
Lemma cooldown_global_witness :
  detect_gesture init (one_hand Hands.palm_hand 1) =
    Ok ((Some "palm", Some Hands.palm_hand, 0.9), after_palm) /\
  detect_gesture after_palm (one_hand Hands.pinch_hand 1.5) =
    Ok ((None, Some Hands.pinch_hand, 0), after_palm) /\
  emitted (Some "palm", Some Hands.palm_hand, 0.9)
  && emitted (None, Some Hands.pinch_hand, 0) = false.
Proof.
  split; [exact init_emits_palm|].
  split; [exact after_palm_suppresses_pinch|].
  destruct (cooldown_global init eq_refl) as [AtMostOne _].
  apply (AtMostOne Hands.palm_hand Hands.pinch_hand 1 1.5
           "palm" 0.9 "ok" 0.85 []
           (Some "palm", Some Hands.palm_hand, 0.9) after_palm []
           after_palm (None, Some Hands.pinch_hand, 0) after_palm);
    try solve [lra | reflexivity].
  - exact classify_palm_hand.
  - exact classify_pinch_hand.
  - exact init_emits_palm.
  - exact after_palm_suppresses_pinch.
Defined.

(** C10: the timestamp of a fresh detector is the number 0, and the very
    first decision compares the clock with it.  Hence a hand that
    classifies to a gesture in a frame read at [now < 0.8] is suppressed
    by a detector that has never emitted, and such an input exists; and
    for every frame a fresh detector answers as any detector does whose
    last emission was stamped 0. *)
Theorem first_frame_suppressed :
  gesture_timestamp init = 0 /\
  gesture_cooldown init = 0.8 /\
  log init = [] /\ last_gesture init = None /\
  (forall lm now g c,
      classify_gesture lm = Ok (Some g, c) ->
      now < 0.8 ->
      detect_gesture init (one_hand lm now) = Ok ((None, Some lm, 0), init)) /\
  (exists lm now g c,
      classify_gesture lm = Ok (Some g, c) /\ 0 <= now < 0.8 /\
      detect_gesture init (one_hand lm now) = Ok ((None, Some lm, 0), init)) /\
  (forall d f,
      gesture_timestamp d = 0 -> gesture_cooldown d = 0.8 ->
      outcome (detect_gesture init f) = outcome (detect_gesture d f)).
Proof.
  assert (S : forall lm now g c,
      classify_gesture lm = Ok (Some g, c) ->
      now < 0.8 ->
      detect_gesture init (one_hand lm now) = Ok ((None, Some lm, 0), init)).
  { intros lm now g c Hc Hnow.
    apply (suppressed_in_cooldown init lm now _ _ Hc).
    cbn [init gesture_timestamp gesture_cooldown]. lra. }
  repeat split; try reflexivity.
  - exact S.
  - exists Hands.palm_hand, 0.5, "palm", 0.9.
    split; [exact classify_palm_hand|]. split; [lra|].
    apply (S _ _ _ _ classify_palm_hand). lra.
  - intros d f Ht Hk. apply outcome_detect; cbn [init gesture_timestamp
      gesture_cooldown]; congruence.
Qed.

Lemma first_frame_suppressed_witness :
  detect_gesture init (one_hand Hands.palm_hand 0.5) =
  Ok ((None, Some Hands.palm_hand, 0), init).
Proof.
  destruct first_frame_suppressed as (_ & _ & _ & _ & S & _).
  apply (S Hands.palm_hand 0.5 "palm" 0.9 classify_palm_hand). lra.
Defined.

End GateClaims.

(** * Further properties of the detector *)

Section RunLog.

Lemma detect_gesture_log (f : frame) (d d' : detector) (o : output) :
  detect_gesture d f = Ok (o, d') ->
  (emitted o = false /\ d' = d) \/
  (emitted o = true /\ log d' = (log d ++ [row_of o])%list /\
   last_gesture d' = fst (fst o) /\
   exists h, In h f /\ gesture_timestamp d' = snd h).
Proof.
  induction f as [|[lm now] rest IH]; cbn [detect_gesture]; intros H.
  - injection H as <- <-. auto.
  - destruct (classify_gesture lm) as [[g c]|e]; cbn [bind] in H;
      [|discriminate].
    destruct (Rltb _ _).
    + injection H as <- <-. auto.
    + destruct (truthy g) eqn:T.
      * injection H as <- <-. right. cbn.
        repeat split; auto. exists (lm, now). cbn. auto.
      * destruct (IH H) as [L|(E & L & G & h & Hin & Hs)]; [left; exact L|].
        right. repeat split; auto. exists h. cbn. auto.
Qed.

(** X1: over any run of frames, the log grows by exactly the rows of the
    emitted outputs, in order, each with its label, its confidence and
    success [True]; the cooldown never changes; and a run without an
    emission leaves the detector as it was. *)
Theorem run_log (fs : list frame) (d d' : detector) (outs : list output) :
  run d fs = Ok (outs, d') ->
  log d' = (log d ++ map row_of (emissions outs))%list /\
  gesture_cooldown d' = gesture_cooldown d /\
  List.length outs = List.length fs /\
  (emissions outs = [] -> d' = d).
Proof.
  revert d outs; induction fs as [|f fs IH]; cbn [run]; intros d outs H.
  - injection H as <- <-. cbn. rewrite app_nil_r. auto.
  - destruct (detect_gesture d f) as [[o d1]|e] eqn:E; cbn [bind] in H;
      [|discriminate].
    cbn [snd fst] in H.
    destruct (run d1 fs) as [[os d2]|e] eqn:E2; cbn [bind] in H;
      [|discriminate].
    injection H as <- <-. cbn [snd fst].
    destruct (IH _ _ E2) as (Hlog & Hk & Hlen & Hq).
    destruct (detect_gesture_inv _ _ _ _ E) as [Hk1 _].
    unfold emissions in *. cbn [filter List.length].
    destruct (detect_gesture_log _ _ _ _ E) as [[Ho ->]|(Ho & L & _)];
      rewrite Ho.
    + repeat split; auto; congruence.
    + cbn [map]. rewrite Hlog, L, <- app_assoc. cbn [app].
      repeat split; try congruence; intros; discriminate.
Qed.

Lemma run_palm_then_pinch :
  run init [one_hand Hands.palm_hand 1; one_hand Hands.pinch_hand 1.5] =
  Ok ([(Some "palm", Some Hands.palm_hand, 0.9);
       (None, Some Hands.pinch_hand, 0)], after_palm).
Proof.
  cbn [run]. rewrite init_emits_palm. cbn [bind snd fst].
  rewrite after_palm_suppresses_pinch. reflexivity.
Qed.

Lemma run_log_witness :
  log after_palm =
  (log init ++
   map row_of (emissions [(Some "palm", Some Hands.palm_hand, 0.9);
                          (None, Some Hands.pinch_hand, 0)]))%list.
Proof.
  apply (run_log _ init after_palm _ run_palm_then_pinch).
Defined.

Lemma detect_gesture_clock (f : frame) (d d' : detector) (o : output) (T : R) :
  detect_gesture d f = Ok (o, d') ->
  Forall (fun h : hand * R => snd h <= T) f ->
  gesture_timestamp d <= T -> gesture_timestamp d' <= T.
Proof.
  intros H HF Hd.
  destruct (detect_gesture_log _ _ _ _ H) as [[_ ->]|(_ & _ & _ & h & Hin & ->)];
    [assumption|].
  rewrite Forall_forall in HF. apply HF, Hin.
Qed.

(** X2: the cooldown bounds the rate of a whole run, whatever the number
    of hands per frame: [n] emissions move the stored timestamp on by at
    least [n] cooldowns, so that frames whose clock readings do not exceed
    [T] yield at most [(T - gesture_timestamp) / cooldown] gestures. *)
Theorem run_rate_limit (fs : list frame) (d d' : detector)
        (outs : list output) (T : R) :
  run d fs = Ok (outs, d') ->
  0 <= gesture_cooldown d ->
  INR (List.length (emissions outs)) * gesture_cooldown d
    <= gesture_timestamp d' - gesture_timestamp d /\
  (clock_below T fs -> gesture_timestamp d <= T ->
   INR (List.length (emissions outs)) * gesture_cooldown d
     <= T - gesture_timestamp d).
Proof.
  revert d outs; induction fs as [|f fs IH]; cbn [run]; intros d outs H Hc.
  - injection H as <- <-. cbn. split; intros; lra.
  - destruct (detect_gesture d f) as [[o d1]|e] eqn:E; cbn [bind] in H;
      [|discriminate].
    cbn [snd fst] in H.
    destruct (run d1 fs) as [[os d2]|e] eqn:E2; cbn [bind] in H;
      [|discriminate].
    injection H as <- <-. cbn [snd fst].
    destruct (detect_gesture_inv _ _ _ _ E) as [Hk Hd].
    destruct (IH _ _ E2) as [Hstep Hwin]; [rewrite Hk; exact Hc|].
    rewrite Hk in Hstep, Hwin.
    unfold emissions in *. cbn [filter].
    assert (Main :
      INR (List.length (if emitted o then o :: filter emitted os
                        else filter emitted os)) * gesture_cooldown d
      <= gesture_timestamp d2 - gesture_timestamp d).
    { destruct Hd as [[Ho ->]|[Ho Hd]]; rewrite Ho; [exact Hstep|].
      cbn [List.length]. rewrite S_INR. lra. }
    split; [exact Main|].
    intros HT Hd0. inversion HT as [|? ? Hf Hfs]; subst.
    pose proof (detect_gesture_clock _ _ _ _ T E Hf Hd0) as H1.
    assert (H2 : gesture_timestamp d2 <= T).
    { clear - E2 Hfs H1. revert d1 os d2 E2 H1.
      induction fs as [|g gs IHg]; cbn [run]; intros d1 os d2 E2 H1.
      - injection E2 as <- <-. exact H1.
      - destruct (detect_gesture d1 g) as [[o' d1']|e] eqn:E'; cbn [bind] in E2;
          [|discriminate].
        cbn [snd fst] in E2.
        destruct (run d1' gs) as [[os' d2']|e] eqn:E2'; cbn [bind] in E2;
          [|discriminate].
        injection E2 as <- <-. cbn [snd].
        inversion Hfs as [|? ? Hg Hgs]; subst.
        apply (IHg Hgs _ _ _ E2').
        apply (detect_gesture_clock _ _ _ _ T E' Hg H1). }
    lra.
Qed.

Lemma run_rate_limit_witness :
  INR (List.length (emissions [(Some "palm", Some Hands.palm_hand, 0.9);
                               (None, Some Hands.pinch_hand, 0)]))
  * gesture_cooldown init
  <= gesture_timestamp after_palm - gesture_timestamp init.
Proof.
  apply (run_rate_limit _ init after_palm _ 2 run_palm_then_pinch).
  cbn. lra.
Defined.

End RunLog.

(** * The guards of the rule ladder *)

Section Guards.





End Guards.

(** * The pointing cone *)

Section Cone.





End Cone.

(** * Moving, mirroring and resizing the hand *)

Section Transformations.

Lemma getitem_map (f : Landmark -> Landmark) (lm : list Landmark) (i : Z) :
  getitem (map f lm) i =
  match getitem lm i with
  | Ok p => Ok (f p)
  | Raise e => Raise e
  end.
Proof.
  unfold getitem. rewrite length_map.
  destruct (_ && _)%bool; [|reflexivity].
  rewrite nth_error_map. destruct (nth_error lm _); reflexivity.
Qed.


(** A transformation of the landmarks that the test on four points does
    not see is not seen by [is_finger_extended] either. *)
Lemma is_finger_extended_map (f : Landmark -> Landmark) :
  (forall t i m w,
      extended_alg (planar (f t)) (planar (f i)) (planar (f m)) (planar (f w))
      = extended_alg (planar t) (planar i) (planar m) (planar w)) ->
  forall lm idx,
    is_finger_extended (map f lm) idx = is_finger_extended lm idx.
Proof.
  intros Hf lm idx.
  destruct (Finger.joints idx) as [[ip mcp]|] eqn:E.
  2:{ rewrite !is_finger_extended_off_table by assumption. reflexivity. }
  destruct (getitem lm idx) as [pt|e1] eqn:G1;
    [destruct (getitem lm ip) as [pi|e2] eqn:G2;
     [destruct (getitem lm mcp) as [pm|e3] eqn:G3;
      [destruct (getitem lm 0%Z) as [pw|e4] eqn:G4|]|]|].
  - rewrite (is_finger_extended_alg lm idx ip mcp pt pi pm pw); auto.
    rewrite (is_finger_extended_alg (map f lm) idx ip mcp
               (f pt) (f pi) (f pm) (f pw)); auto;
      try (rewrite getitem_map; rewrite ?G1, ?G2, ?G3, ?G4; reflexivity).
    rewrite Hf. reflexivity.
  - unfold is_finger_extended.
    rewrite E, !getitem_map, G1, G2, G3, G4. reflexivity.
  - unfold is_finger_extended.
    rewrite E, !getitem_map, G1, G2, G3. reflexivity.
  - unfold is_finger_extended.
    rewrite E, !getitem_map, G1, G2. reflexivity.
  - unfold is_finger_extended.
    rewrite E, !getitem_map, G1. reflexivity.
Qed.

(** ** Translation *)

Lemma vsub_shift (dx dy dz : R) (p q : Landmark) :
  vsub (planar (shift dx dy dz p)) (planar (shift dx dy dz q)) =
  vsub (planar p) (planar q).
Proof. unfold vsub, planar, shift; cbn [lx ly fst snd]. f_equal; ring. Qed.

Lemma extended_alg_shift (dx dy dz : R) (t i m w : Landmark) :
  extended_alg (planar (shift dx dy dz t)) (planar (shift dx dy dz i))
               (planar (shift dx dy dz m)) (planar (shift dx dy dz w))
  = extended_alg (planar t) (planar i) (planar m) (planar w).
Proof. unfold extended_alg. rewrite !vsub_shift. reflexivity. Qed.

(** Opens the classifier on a transformed landmark set and on the set
    itself, lookup by lookup and test by test. *)
Ltac open_mapped lm Hext :=
  unfold classify_gesture;
  rewrite !getitem_map;
  rewrite !(is_finger_extended_map _ Hext);
  repeat match goal with
         | |- context [getitem lm ?i] =>
             destruct (getitem lm i);
             cbn [bind swap_lr_result]; [|reflexivity]
         end;
  repeat match goal with
         | |- context [is_finger_extended lm ?i] =>
             destruct (is_finger_extended lm i);
             cbn [bind swap_lr_result]; [|reflexivity]
         end;
  cbv zeta.

(** X5: the classifier and the extension test do not depend on where the
    hand is: adding the same offset to every landmark changes neither,
    whatever the length of the input (an exception stays the same
    exception). *)
Theorem classify_translation (dx dy dz : R) (lm : list Landmark) :
  classify_gesture (map (shift dx dy dz) lm) = classify_gesture lm /\
  forall idx,
    is_finger_extended (map (shift dx dy dz) lm) idx =
    is_finger_extended lm idx.
Proof.
  split.
  - open_mapped lm (extended_alg_shift dx dy dz).
    rewrite !vsub_shift. reflexivity.
  - intros idx. apply is_finger_extended_map, extended_alg_shift.
Qed.

(** ** Mirroring *)

Lemma vsub_mirror (a : R) (p q : Landmark) :
  vsub (planar (mirror_x a p)) (planar (mirror_x a q)) =
  flipx (vsub (planar p) (planar q)).
Proof.
  unfold vsub, planar, mirror_x, flipx; cbn [lx ly fst snd]. f_equal; ring.
Qed.

Lemma dot_flipx (u v : vec2) : dot (flipx u) (flipx v) = dot u v.
Proof. unfold dot, flipx; cbn [fst snd]. ring. Qed.

Lemma norm_flipx (u : vec2) : norm (flipx u) = norm u.
Proof. unfold norm. rewrite dot_flipx. reflexivity. Qed.

Lemma normalized_flipx (u : vec2) :
  fst (normalized (flipx u)) = - fst (normalized u).
Proof.
  unfold normalized. rewrite norm_flipx.
  destruct (Rgtb (norm u) 0) eqn:G; unfold vdiv, flipx; cbn [fst snd];
    [|reflexivity].
  apply Rgtb_true_iff in G. field. lra.
Qed.

Lemma extended_alg_mirror (a : R) (t i m w : Landmark) :
  extended_alg (planar (mirror_x a t)) (planar (mirror_x a i))
               (planar (mirror_x a m)) (planar (mirror_x a w))
  = extended_alg (planar t) (planar i) (planar m) (planar w).
Proof.
  unfold extended_alg. rewrite !vsub_mirror, !dot_flipx. reflexivity.
Qed.

(** X6: mirroring the hand in a vertical line of the image (as the
    caller does with the camera frame) exchanges "right" and "left" and
    changes nothing else: every other label, every confidence, every
    extension test and every exception is the same. *)
Theorem classify_mirror (a : R) (lm : list Landmark) :
  classify_gesture (map (mirror_x a) lm) =
    swap_lr_result (classify_gesture lm) /\
  forall idx,
    is_finger_extended (map (mirror_x a) lm) idx =
    is_finger_extended lm idx.
Proof.
  split.
  - open_mapped lm (extended_alg_mirror a).
    rewrite !vsub_mirror.
    match goal with
    | |- context [Rgtb (fst ?t) 0.5] =>
        lazymatch t with
        | context [flipx ?V] =>
            change t with (normalized (flipx V));
            rewrite (normalized_flipx V);
            repeat match goal with
                   | |- context [Rgtb (fst ?s) 0.5] =>
                       change s with (normalized V)
                   end;
            set (x := fst (normalized V))
        end
    end.
    rewrite norm_flipx.
    match goal with
    | |- context [Rltb (norm ?W) 0.08] => set (dist := norm W)
    end.
    replace (Rgtb (- x) 0.5) with (Rltb x (-0.5))
      by (apply Rltb_eq_iff; lra).
    replace (Rltb (- x) (-0.5)) with (Rgtb x 0.5)
      by (apply Rltb_eq_iff; lra).
    assert (Hex : Rgtb x 0.5 = true -> Rltb x (-0.5) = true -> False).
    { rewrite Rgtb_true_iff, Rltb_true_iff. lra. }
    destruct (Rgtb x 0.5), (Rltb x (-0.5));
      try (exfalso; apply Hex; reflexivity);
      repeat match goal with
             | b : bool |- _ => destruct b
             end;
      cbn [andb negb forallb swap_lr_result];
      try reflexivity; destruct (Rltb dist 0.08); reflexivity.
  - intros idx. apply is_finger_extended_map, extended_alg_mirror.
Qed.

(** ** Resizing *)










End Transformations.

(** * The caption drawn on the frame *)

Section Caption.

(** Whatever the length of the input, a returned pair is one of the six. *)
Lemma classify_ok_in_six (lm : list Landmark) (g : gesture) (c : R) :
  classify_gesture lm = Ok (g, c) -> In (g, c) six_labels.
Proof.
  intros H.
  destruct (Nat.lt_ge_cases (List.length lm) 21) as [Hs|Hg].
  - rewrite (classify_short lm Hs) in H. discriminate.
  - assert (L : List.length (firstn 21 lm) = 21%nat)
      by (rewrite length_firstn; lia).
    destruct (classify_in_six _ L) as (g' & c' & E & Hin).
    rewrite <- (classify_firstn lm Hg), H in E. injection E as <- <-.
    exact Hin.
Qed.

(** X8: whatever [detect_gesture] returns as its gesture, the caption
    [draw_gesture_text] shows for it comes from the dictionary and never
    from the upper-case fallback: there is a caption exactly when a
    gesture was emitted, and it is one of the five Romanian captions. *)
Theorem caption_of_output (upper : string -> string) (f : frame)
        (d d' : detector) (o : output) :
  detect_gesture d f = Ok (o, d') ->
  (emitted o = false /\ gesture_text upper (fst (fst o)) = None) \/
  (emitted o = true /\
   exists t, gesture_text upper (fst (fst o)) = Some t /\ In t captions).
Proof.
  revert d; induction f as [|[lm now] rest IH]; cbn [detect_gesture];
    intros d H.
  - injection H as <- <-. left. auto.
  - destruct (classify_gesture lm) as [[g c]|e] eqn:C; cbn [bind] in H;
      [|discriminate].
    destruct (Rltb _ _).
    + injection H as <- <-. left. auto.
    + destruct (truthy g) eqn:T; [|apply (IH _ H)].
      injection H as <- <-. right. split; [exact T|].
      pose proof (classify_ok_in_six _ _ _ C) as Hin.
      cbn in Hin. cbn [fst].
      repeat destruct Hin as [Hin|Hin]; try contradiction;
        injection Hin as <- <-; try discriminate;
        eexists; (split; [reflexivity|]); cbn; tauto.
Qed.

Lemma caption_of_output_witness :
  exists t, gesture_text (fun s => s) (Some "palm") = Some t /\ In t captions.
Proof.
  destruct (caption_of_output (fun s => s) _ _ _ _ init_emits_palm)
    as [[E _]|[_ H]].
  - discriminate E.
  - exact H.
Defined.

End Caption.

(** * The document handler *)

Section FileList.

Lemma list_getitem_in_range {A : Type} (l : list A) (i : Z) :
  (0 <= i < Z.of_nat (List.length l))%Z ->
  exists x, nth_error l (Z.to_nat i) = Some x /\ list_getitem l i = Ok x.
Proof.
  intros Hi. unfold list_getitem.
  replace (i <? 0)%Z with false by (symmetry; apply Z.ltb_ge; lia).
  replace (0 <=? i)%Z with true by (symmetry; apply Z.leb_le; lia).
  replace (i <? Z.of_nat (List.length l))%Z with true
    by (symmetry; apply Z.ltb_lt; lia).
  cbn [andb].
  destruct (nth_error l (Z.to_nat i)) as [x|] eqn:E.
  - exists x. auto.
  - apply nth_error_None in E. lia.
Qed.

Lemma list_getitem_beyond {A : Type} (l : list A) (i : Z) :
  (Z.of_nat (List.length l) <= i)%Z -> list_getitem l i = Raise IndexError.
Proof.
  intros Hi. unfold list_getitem.
  replace (i <? 0)%Z with false by (symmetry; apply Z.ltb_ge; lia).
  replace (i <? Z.of_nat (List.length l))%Z with false
    by (symmetry; apply Z.ltb_ge; lia).
  rewrite andb_false_r. reflexivity.
Qed.

Lemma nonempty_length {A : Type} (l : list A) :
  nonempty l = true <-> (0 < Z.of_nat (List.length l))%Z.
Proof. destruct l; cbn; split; intros; try lia; try discriminate; auto. Qed.

Lemma get_current_file_valid (h : PDFHandler) :
  selection_valid h ->
  exists name,
    nth_error (pdf_files h) (Z.to_nat (current_file_index h)) = Some name /\
    get_current_file h = Ok (Some name).
Proof.
  intros Hv. unfold get_current_file.
  assert (Hn : nonempty (pdf_files h) = true)
    by (apply nonempty_length; unfold selection_valid in Hv; lia).
  rewrite Hn. cbn [negb].
  destruct (list_getitem_in_range _ _ Hv) as (x & Hx & ->).
  exists x. auto.
Qed.

(** What one call of [navigate] does on a non-empty list. *)
Lemma navigate_step (h : PDFHandler) (direction : Z) :
  nonempty (pdf_files h) = true ->
  exists name,
    navigate h direction =
      Ok (Some name,
          {| pdf_folder := pdf_folder h;
             pdf_files := pdf_files h;
             current_file_index :=
               ((current_file_index h + direction)
                  mod Z.of_nat (List.length (pdf_files h)))%Z;
             current_pdf := current_pdf h;
             current_page := current_page h;
             total_pages := total_pages h |}) /\
    nth_error (pdf_files h)
      (Z.to_nat ((current_file_index h + direction)
                   mod Z.of_nat (List.length (pdf_files h)))) = Some name.
Proof.
  intros Hn. unfold navigate. rewrite Hn. cbn [negb].
  apply nonempty_length in Hn.
  cbn [pdf_files current_file_index].
  destruct (list_getitem_in_range (pdf_files h)
              ((current_file_index h + direction)
                 mod Z.of_nat (List.length (pdf_files h))))
    as (x & Hx & ->).
  { apply Z.mod_pos_bound. lia. }
  exists x. auto.
Qed.

(** X9: [navigate] never raises.  On an empty list it returns [None] and
    changes nothing; otherwise, from any index whatever and in any
    direction, it leaves a selection that points into the list, returns
    the file now selected, and touches neither the list nor the open
    document. *)
Theorem navigate_selects (h : PDFHandler) (direction : Z) :
  if nonempty (pdf_files h)
  then exists name h',
      navigate h direction = Ok (Some name, h') /\
      selection_valid h' /\
      get_current_file h' = Ok (Some name) /\
      In name (pdf_files h) /\
      pdf_files h' = pdf_files h /\ pdf_folder h' = pdf_folder h /\
      current_pdf h' = current_pdf h /\ current_page h' = current_page h /\
      total_pages h' = total_pages h
  else navigate h direction = Ok (None, h).
Proof.
  destruct (nonempty (pdf_files h)) eqn:Hn.
  - destruct (navigate_step h direction Hn) as (name & -> & Hnth).
    eexists; eexists. split; [reflexivity|].
    assert (Hv : selection_valid
                   {| pdf_folder := pdf_folder h;
                      pdf_files := pdf_files h;
                      current_file_index :=
                        ((current_file_index h + direction)
                           mod Z.of_nat (List.length (pdf_files h)))%Z;
                      current_pdf := current_pdf h;
                      current_page := current_page h;
                      total_pages := total_pages h |}).
    { unfold selection_valid. cbn. apply Z.mod_pos_bound.
      apply nonempty_length, Hn. }
    split; [exact Hv|].
    destruct (get_current_file_valid _ Hv) as (n' & Hn' & ->).
    cbn in Hn'. rewrite Hnth in Hn'. injection Hn' as <-.
    repeat split; auto. apply (nth_error_In _ _ Hnth).
  - unfold navigate. rewrite Hn. reflexivity.
Qed.

(** X10: with a valid selection, a step in any direction followed by the
    opposite step gives back the handler as it was, and returns the file
    that was selected at first. *)
Theorem navigate_round_trip (h : PDFHandler) (direction : Z) :
  selection_valid h ->
  exists there back h1,
    navigate h direction = Ok (Some there, h1) /\
    navigate h1 (- direction) = Ok (Some back, h) /\
    get_current_file h = Ok (Some back).
Proof.
  intros Hv.
  assert (Hn : nonempty (pdf_files h) = true)
    by (apply nonempty_length; unfold selection_valid in Hv; lia).
  destruct (navigate_step h direction Hn) as (there & E1 & _).
  rewrite E1.
  match type of E1 with _ = Ok (_, ?x) => set (h1 := x) in * end.
  destruct (navigate_step h1 (- direction) Hn) as (back & E2 & Hb).
  destruct (get_current_file_valid h Hv) as (cur & Hcur & Ecur).
  assert (Hidx : ((current_file_index h1 + - direction)
                    mod Z.of_nat (List.length (pdf_files h1)))%Z
                 = current_file_index h).
  { cbn [h1 current_file_index pdf_files].
    rewrite Zplus_mod_idemp_l.
    replace (current_file_index h + direction + - direction)%Z
      with (current_file_index h) by lia.
    apply Z.mod_small, Hv. }
  rewrite Hidx in E2, Hb. cbn [h1 pdf_files] in Hb.
  rewrite Hcur in Hb. injection Hb as <-.
  exists there, cur, h1. split; [reflexivity|]. split; [|exact Ecur].
  rewrite E2. destruct h; reflexivity.
Qed.

Lemma navigate_round_trip_witness :
  let h := {| pdf_folder := "Lectii"; pdf_files := ["a.pdf"; "b.pdf"];
              current_file_index := 1%Z; current_pdf := None;
              current_page := 0%Z; total_pages := 0%Z |} in
  exists there back h1,
    navigate h 1 = Ok (Some there, h1) /\
    navigate h1 (- (1)) = Ok (Some back, h) /\
    get_current_file h = Ok (Some back).
Proof.
  intros h. apply (navigate_round_trip h 1).
  unfold selection_valid. cbn. lia.
Defined.

Lemma navigate_times_index (n : nat) (h : PDFHandler) (direction : Z) :
  nonempty (pdf_files h) = true ->
  selection_valid h ->
  navigate_times h direction n =
    Ok {| pdf_folder := pdf_folder h;
          pdf_files := pdf_files h;
          current_file_index :=
            ((current_file_index h + Z.of_nat n * direction)
               mod Z.of_nat (List.length (pdf_files h)))%Z;
          current_pdf := current_pdf h;
          current_page := current_page h;
          total_pages := total_pages h |}.
Proof.
  revert h; induction n as [|n IH]; intros h Hn Hv.
  - cbn [navigate_times]. f_equal.
    replace (current_file_index h + Z.of_nat 0 * direction)%Z
      with (current_file_index h) by lia.
    rewrite Z.mod_small by exact Hv. destruct h; reflexivity.
  - cbn [navigate_times].
    destruct (navigate_step h direction Hn) as (name & -> & _).
    cbn [bind snd].
    rewrite IH.
    + cbn [pdf_folder pdf_files current_file_index current_pdf current_page
             total_pages].
      f_equal. f_equal. rewrite Zplus_mod_idemp_l. f_equal. lia.
    + exact Hn.
    + unfold selection_valid. cbn. apply Z.mod_pos_bound.
      apply nonempty_length, Hn.
Qed.

(** X11: the file list is a ring.  With a valid selection, as many steps
    in one direction as there are files give back the handler as it was;
    one step forward from the last file selects the first, and one step
    back from the first selects the last. *)
Theorem navigate_cycle (h : PDFHandler) (direction : Z) :
  selection_valid h ->
  navigate_times h direction (List.length (pdf_files h)) = Ok h /\
  (current_file_index h = (Z.of_nat (List.length (pdf_files h)) - 1)%Z ->
   exists name h', navigate h 1 = Ok (Some name, h') /\
                   current_file_index h' = 0%Z) /\
  (current_file_index h = 0%Z ->
   exists name h', navigate h (-1) = Ok (Some name, h') /\
                   current_file_index h' =
                   (Z.of_nat (List.length (pdf_files h)) - 1)%Z).
Proof.
  intros Hv.
  assert (Hn : nonempty (pdf_files h) = true)
    by (apply nonempty_length; unfold selection_valid in Hv; lia).
  pose proof (proj1 (nonempty_length _) Hn) as Hpos.
  split; [|split].
  - rewrite (navigate_times_index _ h direction Hn Hv).
    rewrite (Z.mul_comm _ direction).
    rewrite Z.mod_add by lia. rewrite Z.mod_small by exact Hv.
    destruct h; reflexivity.
  - intros Hlast. destruct (navigate_step h 1 Hn) as (name & -> & _).
    eexists; eexists. split; [reflexivity|]. cbn. rewrite Hlast.
    replace (Z.of_nat (List.length (pdf_files h)) - 1 + 1)%Z
      with (Z.of_nat (List.length (pdf_files h))) by lia.
    apply Z.mod_same. lia.
  - intros Hfirst. destruct (navigate_step h (-1) Hn) as (name & -> & _).
    eexists; eexists. split; [reflexivity|]. cbn. rewrite Hfirst.
    replace (0 + -1)%Z
      with (Z.of_nat (List.length (pdf_files h)) - 1
            + (-1) * Z.of_nat (List.length (pdf_files h)))%Z by lia.
    rewrite Z.mod_add by lia. apply Z.mod_small. lia.
Qed.

Lemma navigate_cycle_witness :
  let h := {| pdf_folder := "Lectii"; pdf_files := ["a.pdf"; "b.pdf"; "c.pdf"];
              current_file_index := 2%Z; current_pdf := None;
              current_page := 0%Z; total_pages := 0%Z |} in
  navigate_times h 1 3 = Ok h.
Proof.
  intros h. apply (navigate_cycle h 1). unfold selection_valid. cbn. lia.
Defined.

End FileList.

Section Pages.

Lemma navigate_pdf_closed (h : PDFHandler) (direction : Z) :
  pdf_open h = false -> navigate_pdf h direction = (false, h).
Proof. intros H. unfold navigate_pdf. rewrite H. reflexivity. Qed.

Lemma navigate_pdf_open (h : PDFHandler) (direction : Z) :
  pdf_open h = true ->
  navigate_pdf h direction =
  if ((0 <=? current_page h + direction)
      && (current_page h + direction <? total_pages h))%Z
  then (true,
        {| pdf_folder := pdf_folder h; pdf_files := pdf_files h;
           current_file_index := current_file_index h;
           current_pdf := current_pdf h;
           current_page := (current_page h + direction)%Z;
           total_pages := total_pages h |})
  else (false, h).
Proof. intros H. unfold navigate_pdf. rewrite H. reflexivity. Qed.

(** X12: inside an open document the page counter never leaves the
    document and never wraps around: [navigate_pdf] succeeds exactly when
    the target page exists and then moves there, so that the opposite
    step leads back; otherwise, as on the first page going back or on the
    last page going forward, it returns [False] and changes nothing. *)
Theorem navigate_pdf_bounds (h : PDFHandler) (direction : Z) :
  pdf_open h = true ->
  page_valid h ->
  page_valid (snd (navigate_pdf h direction)) /\
  (fst (navigate_pdf h direction) = true <->
   (0 <= current_page h + direction < total_pages h)%Z) /\
  (fst (navigate_pdf h direction) = true ->
   current_page (snd (navigate_pdf h direction))
   = (current_page h + direction)%Z /\
   navigate_pdf (snd (navigate_pdf h direction)) (- direction) = (true, h)) /\
  (fst (navigate_pdf h direction) = false ->
   snd (navigate_pdf h direction) = h).
Proof.
  intros Ho Hv. unfold page_valid in *.
  rewrite (navigate_pdf_open h direction Ho).
  destruct ((0 <=? current_page h + direction)%Z
            && (current_page h + direction <? total_pages h)%Z)%bool eqn:B.
  - apply andb_true_iff in B as [B1 B2].
    apply Z.leb_le in B1. apply Z.ltb_lt in B2.
    cbn [fst snd current_page total_pages].
    repeat split; auto; try lia; try discriminate.
    rewrite navigate_pdf_open by exact Ho.
    cbn [current_page total_pages pdf_folder pdf_files current_file_index
           current_pdf].
    replace (current_page h + direction + - direction)%Z
      with (current_page h) by lia.
    replace ((0 <=? current_page h)%Z && (current_page h <? total_pages h)%Z)%bool
      with true
      by (symmetry; apply andb_true_iff; split;
          [apply Z.leb_le|apply Z.ltb_lt]; lia).
    destruct h; reflexivity.
  - cbn [fst snd]. repeat split; auto; try lia; try discriminate.
Qed.

Lemma navigate_pdf_bounds_witness :
  let h := {| pdf_folder := "Lectii"; pdf_files := ["a.pdf"];
              current_file_index := 0%Z;
              current_pdf := Some (mkReader (Some ["one"; "two"]));
              current_page := 1%Z; total_pages := 2%Z |} in
  fst (navigate_pdf h 1) = false /\ snd (navigate_pdf h 1) = h.
Proof.
  intros h.
  assert (Ho : pdf_open h = true) by reflexivity.
  assert (Hv : page_valid h) by (unfold page_valid; cbn; lia).
  destruct (navigate_pdf_bounds h 1 Ho Hv) as (_ & _ & _ & Hstay).
  split; [reflexivity|]. apply Hstay. reflexivity.
Defined.

End Pages.

Section Listing.

Lemma endswith_spec (s suffix : string) :
  endswith s suffix = true ->
  substring (String.length s - String.length suffix)
            (String.length suffix) s = suffix.
Proof.
  unfold endswith.
  destruct (String.length suffix <=? String.length s)%nat; [|discriminate].
  apply String.eqb_eq.
Qed.

Lemma pdf_not_text (w : World) (f : string) :
  is_pdf_file w f = true -> is_text_file w f = false.
Proof.
  unfold is_pdf_file, is_text_file. intros H.
  destruct (endswith (lower w f) ".txt") eqn:T; [|reflexivity].
  apply endswith_spec in H. apply endswith_spec in T.
  cbn [String.length] in H, T. rewrite H in T. discriminate.
Qed.

Lemma insert_sorted_perm (x : string) (l : list string) :
  Permutation (insert_sorted x l) (x :: l).
Proof.
  induction l as [|y l IH]; cbn [insert_sorted]; [reflexivity|].
  destruct (String.leb x y); [reflexivity|].
  rewrite IH. apply perm_swap.
Qed.

Lemma sort_strings_perm (l : list string) : Permutation (sort_strings l) l.
Proof.
  induction l as [|x l IH]; cbn; [constructor|].
  rewrite insert_sorted_perm. constructor. exact IH.
Qed.

Lemma insert_sorted_sorted (x : string) (l : list string) :
  Sorted str_le l -> Sorted str_le (insert_sorted x l).
Proof.
  induction l as [|y l IH]; cbn [insert_sorted]; intros Hs.
  - repeat constructor.
  - destruct (String.leb x y) eqn:L.
    + constructor; [exact Hs|]. constructor. exact L.
    + inversion Hs as [|? ? Hs' Hd]; subst.
      constructor; [apply IH, Hs'|].
      assert (Hyx : str_le y x).
      { destruct (String.leb_total x y) as [C|C]; [congruence|exact C]. }
      destruct l as [|z l]; cbn [insert_sorted].
      * constructor. exact Hyx.
      * destruct (String.leb x z); constructor; [exact Hyx|].
        inversion Hd; subst. assumption.
Qed.

Lemma sort_strings_sorted (l : list string) : Sorted str_le (sort_strings l).
Proof.
  induction l as [|x l IH]; cbn; [constructor|].
  apply insert_sorted_sorted, IH.
Qed.

(** X13: after [scan_folder] the file list is the PDF names of the
    directory listing (names whose lower-cased form ends in ".pdf"), each
    as often as listed, in ascending order; no listed file counts as a
    text file; and nothing else of the handler changes, the selection
    index included. *)
Theorem scan_folder_listing (w : World) (listing : list string)
        (h : PDFHandler) :
  let h' := scan_folder w listing h in
  Sorted str_le (pdf_files h') /\
  Permutation (pdf_files h') (filter (is_pdf_file w) listing) /\
  (forall f, In f (pdf_files h') <-> In f listing /\ is_pdf_file w f = true) /\
  (forall f, In f (pdf_files h') -> is_text_file w f = false) /\
  current_file_index h' = current_file_index h /\
  current_pdf h' = current_pdf h /\ current_page h' = current_page h /\
  total_pages h' = total_pages h.
Proof.
  intros h'. unfold h', scan_folder. cbn.
  change (fun f => endswith (lower w f) ".pdf") with (is_pdf_file w).
  pose proof (sort_strings_perm (filter (is_pdf_file w) listing)) as P.
  assert (M : forall f, In f (sort_strings (filter (is_pdf_file w) listing))
                        <-> In f listing /\ is_pdf_file w f = true).
  { intros f. rewrite <- filter_In. split; apply Permutation_in;
      [exact P|symmetry; exact P]. }
  repeat split; auto; try apply M; try assumption.
  - apply sort_strings_sorted.
  - intros f Hf. apply pdf_not_text, M, Hf.
Qed.

(** X14: [scan_folder] does not look at the selection.  When the new
    list is not empty but has no entry at the old index, asking for the
    current file, or opening it, raises [IndexError]; one step of
    [navigate] in any direction makes the selection valid again. *)
Theorem stale_selection (w : World) (listing : list string) (h : PDFHandler)
        (direction : Z) :
  let h' := scan_folder w listing h in
  pdf_files h' <> [] ->
  (Z.of_nat (List.length (pdf_files h')) <= current_file_index h)%Z ->
  get_current_file h' = Raise IndexError /\
  open_pdf w h' None = Raise IndexError /\
  exists name h'',
    navigate h' direction = Ok (Some name, h'') /\
    selection_valid h'' /\ get_current_file h'' = Ok (Some name).
Proof.
  intros h' Hne Hstale.
  assert (Hn : nonempty (pdf_files h') = true)
    by (destruct (pdf_files h'); [contradiction|reflexivity]).
  assert (Hidx : current_file_index h' = current_file_index h) by reflexivity.
  split; [|split].
  - unfold get_current_file. rewrite Hn. cbn [negb].
    rewrite list_getitem_beyond by (rewrite Hidx; exact Hstale). reflexivity.
  - unfold open_pdf. rewrite Hn. cbn [negb].
    rewrite list_getitem_beyond by (rewrite Hidx; exact Hstale). reflexivity.
  - pose proof (navigate_selects h' direction) as S. rewrite Hn in S.
    destruct S as (name & h'' & E & V & G & _).
    exists name, h''. auto.
Qed.

Lemma stale_selection_witness :
  let w := {| lower := fun s => s; exists_in := fun _ _ => true;
              pdf_reader := fun _ _ => None; read_text := fun _ _ => None |} in
  let h := {| pdf_folder := "Lectii";
              pdf_files := ["a.pdf"; "b.pdf"; "c.pdf"];
              current_file_index := 2%Z; current_pdf := None;
              current_page := 0%Z; total_pages := 0%Z |} in
  get_current_file (scan_folder w ["notes.txt"; "a.pdf"] h)
  = Raise IndexError.
Proof.
  intros w h.
  apply (stale_selection w ["notes.txt"; "a.pdf"] h 1).
  - cbv. discriminate.
  - cbv. discriminate.
Defined.

End Listing.

(** * Usage statistics *)

Section Counting.

Lemma has_key_in (d : counts) (k : string) :
  has_key d k = true <-> In k (map fst d).
Proof.
  unfold has_key. rewrite existsb_exists, in_map_iff. split.
  - intros (kv & Hin & E). apply String.eqb_eq in E. exists kv. auto.
  - intros (kv & E & Hin). exists kv. split; [exact Hin|].
    apply String.eqb_eq, E.
Qed.

Lemma increment_keys (d : counts) (k : string) :
  map fst (increment d k) = map fst d.
Proof.
  unfold increment. rewrite map_map. apply map_ext.
  intros kv. destruct (String.eqb (fst kv) k); reflexivity.
Qed.

Lemma count_of_increment (d : counts) (k k' : string) :
  count_of (increment d k) k' =
  if String.eqb k k' && has_key d k
  then (count_of d k' + 1)%Z else count_of d k'.
Proof.
  unfold count_of, has_key, increment.
  induction d as [|[key v] d IH]; cbn [map find existsb fst snd].
  - rewrite andb_false_r. reflexivity.
  - destruct (String.eqb key k) eqn:E1; cbn [fst snd orb].
    + apply String.eqb_eq in E1. subst key.
      destruct (String.eqb k k') eqn:E3; cbn [andb fst snd].
      * reflexivity.
      * cbn [andb] in IH. exact IH.
    + destruct (String.eqb key k') eqn:E2.
      * assert (E3 : String.eqb k k' = false).
        { apply String.eqb_neq. apply String.eqb_eq in E2.
          apply String.eqb_neq in E1. congruence. }
        rewrite E3. reflexivity.
      * exact IH.
Qed.

Lemma total_count_increment (d : counts) (k : string) :
  NoDup (map fst d) -> In k (map fst d) ->
  total_count (increment d k) = (total_count d + 1)%Z.
Proof.
  unfold total_count, increment.
  induction d as [|[key v] d IH]; cbn [map fold_right fst snd In];
    intros Hnd Hin; [contradiction|].
  inversion Hnd as [|? ? Hnot Hnd']; subst.
  destruct (String.eqb_spec key k) as [->|Hk].
  - cbn [snd].
    assert (Same : map (fun kv : string * Z =>
                          if String.eqb (fst kv) k
                          then (fst kv, (snd kv + 1)%Z) else kv) d = d).
    { clear - Hnot.
      induction d as [|[key' v'] d IHd]; cbn [map fst snd]; auto.
      cbn [map fst In] in Hnot.
      destruct (String.eqb key' k) eqn:E.
      - exfalso. apply Hnot. left. apply String.eqb_eq, E.
      - f_equal. apply IHd. intros H. apply Hnot. auto. }
    rewrite Same. lia.
  - cbn [snd]. destruct Hin as [E|Hin]; [congruence|].
    rewrite (IH Hnd' Hin). lia.
Qed.

Lemma log_gestures_step (s : Stats) (g c : string)
      (gs : list (string * string)) :
  log_gestures s ((g, c) :: gs) =
  log_gestures (stats_log_gesture s g true c) gs.
Proof. reflexivity. Qed.

Lemma stats_log_gesture_fields (s : Stats) (g c : string) :
  gesture_counts (stats_log_gesture s g true c) =
    (if has_key (gesture_counts s) g
     then increment (gesture_counts s) g else gesture_counts s) /\
  navigation_counts (stats_log_gesture s g true c) = navigation_counts s /\
  ollama_times (stats_log_gesture s g true c) = ollama_times s /\
  events (stats_log_gesture s g true c) =
    (events s ++ [("gesture", VName g, true, c)])%list.
Proof.
  unfold stats_log_gesture. destruct (has_key (gesture_counts s) g); cbn; auto.
Qed.

Lemma log_gestures_counts (gs : list (string * string)) (s : Stats) :
  let s' := log_gestures s gs in
  map fst (gesture_counts s') = map fst (gesture_counts s) /\
  (forall k,
      count_of (gesture_counts s') k =
      if has_key (gesture_counts s) k
      then (count_of (gesture_counts s) k
            + Z.of_nat (count_occ string_dec (map fst gs) k))%Z
      else count_of (gesture_counts s) k) /\
  navigation_counts s' = navigation_counts s /\
  ollama_times s' = ollama_times s /\
  events s' =
    (events s ++
     map (fun gc => ("gesture", VName (fst gc), true, snd gc)) gs)%list.
Proof.
  revert s; induction gs as [|[g c] gs IH]; intros s; cbn zeta.
  - cbn. rewrite app_nil_r. repeat split; auto.
    intros k. destruct (has_key _ _); lia.
  - rewrite log_gestures_step.
    destruct (stats_log_gesture_fields s g c) as (Hc & Hn & Ho & He).
    destruct (IH (stats_log_gesture s g true c)) as (K & C & N & O & E).
    assert (Keys : map fst (gesture_counts (stats_log_gesture s g true c))
                   = map fst (gesture_counts s)).
    { rewrite Hc. destruct (has_key _ _); [apply increment_keys|reflexivity]. }
    assert (HK : forall k,
               has_key (gesture_counts (stats_log_gesture s g true c)) k
               = has_key (gesture_counts s) k).
    { intros k. apply eq_true_iff_eq. rewrite !has_key_in, Keys. tauto. }
    split; [congruence|]. split; [|split; [congruence|split; [congruence|]]].
    + intros k. rewrite C, HK. cbn [map fst count_occ].
      destruct (has_key (gesture_counts s) k) eqn:Hk.
      * rewrite Hc. destruct (has_key (gesture_counts s) g) eqn:Hg.
        -- rewrite count_of_increment, Hg.
           destruct (string_dec g k) as [->|Hne].
           ++ rewrite String.eqb_refl. cbn [andb]. lia.
           ++ apply String.eqb_neq in Hne. rewrite Hne. cbn [andb]. lia.
        -- destruct (string_dec g k) as [->|Hne]; [congruence|]. lia.
      * rewrite Hc. destruct (has_key (gesture_counts s) g) eqn:Hg;
          [|reflexivity].
        rewrite count_of_increment, Hg.
        destruct (String.eqb_spec g k) as [->|_]; [congruence|reflexivity].
    + rewrite E, He, <- app_assoc. reflexivity.
Qed.

(** X15: the gesture counters count exactly.  After any sequence of
    gestures has been logged on a fresh [Stats], the counter of each of
    the five known names equals the number of times that name was
    logged; a name outside the five is written to the event log but
    counted nowhere; each call appends one "gesture" row with its name
    and context; and the navigation counters and times are untouched. *)
Theorem stats_gesture_counts (gs : list (string * string)) :
  let s := log_gestures new_stats gs in
  map fst (gesture_counts s) = gesture_keys /\
  (forall k, In k gesture_keys ->
             count_of (gesture_counts s) k
             = Z.of_nat (count_occ string_dec (map fst gs) k)) /\
  (forall k, ~ In k gesture_keys -> count_of (gesture_counts s) k = 0%Z) /\
  navigation_counts s = navigation_counts new_stats /\
  ollama_times s = [] /\
  events s = map (fun gc => ("gesture", VName (fst gc), true, snd gc)) gs.
Proof.
  destruct (log_gestures_counts gs new_stats) as (K & C & N & O & E).
  cbn zeta. split; [exact K|].
  split; [|split; [|split; [exact N|split; [exact O|exact E]]]].
  - intros k Hk. rewrite C.
    replace (has_key (gesture_counts new_stats) k) with true
      by (symmetry; apply has_key_in; exact Hk).
    cbn in Hk.
    repeat destruct Hk as [Hk|Hk]; try contradiction; subst; cbn; lia.
  - intros k Hk. rewrite C.
    replace (has_key (gesture_counts new_stats) k) with false.
    + unfold count_of.
      destruct (find _ (gesture_counts new_stats)) as [kv|] eqn:F;
        [|reflexivity].
      apply find_some in F. destruct F as [Hin Ek].
      apply String.eqb_eq in Ek. exfalso. apply Hk. rewrite <- Ek.
      change gesture_keys with (map fst (gesture_counts new_stats)).
      apply in_map, Hin.
    + symmetry. destruct (has_key (gesture_counts new_stats) k) eqn:H;
        [|reflexivity].
      apply has_key_in in H. contradiction.
Qed.

Lemma detect_gesture_label (f : frame) (d d' : detector) (o : output) :
  detect_gesture d f = Ok (o, d') ->
  emitted o = true -> In (label_of o) gesture_keys.
Proof.
  revert d; induction f as [|[lm now] rest IH]; cbn [detect_gesture];
    intros d H He.
  - injection H as <- <-. discriminate.
  - destruct (classify_gesture lm) as [[g c]|e] eqn:C; cbn [bind] in H;
      [|discriminate].
    destruct (Rltb _ _).
    + injection H as <- <-. discriminate.
    + destruct (truthy g) eqn:T; [|apply (IH _ H He)].
      injection H as <- <-.
      pose proof (classify_ok_in_six _ _ _ C) as Hin.
      cbn in Hin. unfold label_of. cbn [fst].
      repeat destruct Hin as [Hin|Hin]; try contradiction;
        injection Hin as <- <-; try discriminate; cbn; tauto.
Qed.

Lemma run_labels (fs : list frame) (d d' : detector) (outs : list output) :
  run d fs = Ok (outs, d') ->
  Forall (fun o => In (label_of o) gesture_keys) (emissions outs).
Proof.
  revert d outs; induction fs as [|f fs IH]; cbn [run]; intros d outs H.
  - injection H as <- <-. constructor.
  - destruct (detect_gesture d f) as [[o d1]|e] eqn:E; cbn [bind] in H;
      [|discriminate].
    cbn [snd fst] in H.
    destruct (run d1 fs) as [[os d2]|e] eqn:E2; cbn [bind] in H;
      [|discriminate].
    injection H as <- <-. cbn [fst]. unfold emissions. cbn [filter].
    destruct (emitted o) eqn:Ho; [constructor|]; try apply (IH _ _ E2).
    apply (detect_gesture_label _ _ _ _ E Ho).
Qed.

Lemma log_gestures_total (gs : list (string * string)) (s : Stats) :
  NoDup (map fst (gesture_counts s)) ->
  Forall (fun gc => In (fst gc) (map fst (gesture_counts s))) gs ->
  total_count (gesture_counts (log_gestures s gs)) =
  (total_count (gesture_counts s) + Z.of_nat (List.length gs))%Z.
Proof.
  revert s; induction gs as [|[g c] gs IH]; intros s Hnd Hall.
  - cbn. lia.
  - rewrite log_gestures_step.
    inversion Hall as [|? ? Hg Hgs]; subst. cbn [fst] in Hg.
    destruct (stats_log_gesture_fields s g c) as (Hc & _).
    assert (Hk : has_key (gesture_counts s) g = true)
      by (apply has_key_in, Hg).
    rewrite Hk in Hc.
    assert (Keys : map fst (gesture_counts (stats_log_gesture s g true c))
                   = map fst (gesture_counts s))
      by (rewrite Hc; apply increment_keys).
    rewrite IH; rewrite ?Keys; auto.
    rewrite Hc, total_count_increment by assumption.
    cbn [List.length]. lia.
Qed.

(** X16: no emitted gesture escapes the statistics.  When the gestures
    emitted by a run of the detector are logged on a fresh [Stats], with
    whatever contexts, every one of them hits a counter: the counters
    add up to the number of emissions. *)
Theorem emissions_all_counted (fs : list frame) (d d' : detector)
        (outs : list output) (context : output -> string) :
  run d fs = Ok (outs, d') ->
  total_count
    (gesture_counts
       (log_gestures new_stats
          (map (fun o => (label_of o, context o)) (emissions outs))))
  = Z.of_nat (List.length (emissions outs)).
Proof.
  intros H. rewrite log_gestures_total.
  - rewrite length_map. cbn. lia.
  - cbn. repeat constructor; cbn; intuition discriminate.
  - pose proof (run_labels _ _ _ _ H) as L.
    rewrite Forall_map. cbn [fst].
    change (map fst (gesture_counts new_stats)) with gesture_keys. exact L.
Qed.

Lemma emissions_all_counted_witness :
  total_count
    (gesture_counts
       (log_gestures new_stats
          (map (fun o => (label_of o, "menu"))
               (emissions [(Some "palm", Some Hands.palm_hand, 0.9);
                           (None, Some Hands.pinch_hand, 0)]))))
  = Z.of_nat (List.length
                (emissions [(Some "palm", Some Hands.palm_hand, 0.9);
                            (None, Some Hands.pinch_hand, 0)])).
Proof.
  apply (emissions_all_counted _ init after_palm _ (fun _ => "menu")
           run_palm_then_pinch).
Defined.

End Counting.

Section Summary.





End Summary.

(** * The on-screen log *)

Section ScreenLog.

Lemma last_n_all {A : Type} (n : nat) (l : list A) :
  (List.length l <= n)%nat -> last_n n l = l.
Proof.
  intros H. unfold last_n.
  replace (List.length l - n)%nat with 0%nat by lia. reflexivity.
Qed.

Lemma last_n_length {A : Type} (n : nat) (l : list A) :
  (List.length (last_n n l) <= n)%nat.
Proof. unfold last_n. rewrite length_skipn. lia. Qed.

Lemma last_n_app {A : Type} (n : nat) (a b : list A) :
  last_n n (last_n n a ++ b) = last_n n (a ++ b).
Proof.
  unfold last_n.
  set (k := (List.length a - n)%nat).
  assert (Hk : (k <= List.length a)%nat) by (unfold k; lia).
  assert (E : (skipn k a ++ b)%list = skipn k (a ++ b)).
  { rewrite skipn_app.
    replace (k - List.length a)%nat with 0%nat by lia. reflexivity. }
  rewrite E, skipn_skipn. f_equal.
  rewrite length_skipn, length_app. unfold k. lia.
Qed.

Lemma slice_from_last {A : Type} (l : list A) (m : Z) :
  (0 < m)%Z -> slice_from l (- m) = last_n (Z.to_nat m) l.
Proof.
  intros Hm. unfold slice_from, last_n.
  replace (- m <? 0)%Z with true by (symmetry; apply Z.ltb_lt; lia).
  f_equal. lia.
Qed.

Lemma add_log_last (u : UI) (message : string) :
  (0 < max_log_messages u)%Z ->
  (List.length (log_messages u) <= Z.to_nat (max_log_messages u))%nat ->
  log_messages (add_log u message) =
  last_n (Z.to_nat (max_log_messages u)) (log_messages u ++ [message]).
Proof.
  intros Hm Hl. unfold add_log. cbn [log_messages].
  destruct (_ <? _)%Z eqn:C.
  - apply slice_from_last, Hm.
  - apply Z.ltb_ge in C. symmetry. apply last_n_all. lia.
Qed.

(** X18: the on-screen log is a window on the history.  For a positive
    limit (10 after [__init__]) and a log within it, after any sequence
    of [add_log] calls the log holds exactly the last [max_log_messages]
    messages of the old log followed by the new messages, oldest first;
    it never grows beyond the limit, and neither the view nor the exit
    dialogue is touched. *)
Theorem add_log_window (u : UI) (messages : list string) :
  (0 < max_log_messages u)%Z ->
  (List.length (log_messages u) <= Z.to_nat (max_log_messages u))%nat ->
  let u' := fold_left add_log messages u in
  log_messages u' =
    last_n (Z.to_nat (max_log_messages u)) (log_messages u ++ messages) /\
  (List.length (log_messages u') <= Z.to_nat (max_log_messages u))%nat /\
  max_log_messages u' = max_log_messages u /\
  current_view u' = current_view u /\
  show_exit_modal u' = show_exit_modal u.
Proof.
  revert u; induction messages as [|m ms IH]; intros u Hm Hl; cbn zeta.
  - cbn [fold_left]. rewrite app_nil_r, last_n_all by exact Hl. auto.
  - cbn [fold_left].
    pose proof (add_log_last u m Hm Hl) as E.
    assert (Hmax : max_log_messages (add_log u m) = max_log_messages u)
      by reflexivity.
    destruct (IH (add_log u m)) as (L & B & M & V & X).
    + rewrite Hmax. exact Hm.
    + rewrite Hmax, E. apply last_n_length.
    + rewrite Hmax in *. rewrite L, E, last_n_app, <- app_assoc.
      repeat split; auto. apply last_n_length.
Qed.

Lemma add_log_window_witness :
  log_messages (fold_left add_log ["a"; "b"] new_ui) =
  last_n 10 (log_messages new_ui ++ ["a"; "b"]).
Proof.
  apply (add_log_window new_ui ["a"; "b"]); cbn; lia.
Defined.

End ScreenLog.

(** * The gesture handlers of the application *)

(** Takes a handler equation [H : ... = Ok a'] apart, branch by branch. *)
Ltac split_handler H :=
  repeat (cbn [bind fst snd log_msg with_ui with_stats with_pdf with_running
                 with_text with_text_page start_ollama pdf_handler ui stats
                 running current_text text_page ollama_running
                 threads_started current_view show_exit_modal set_view
                 set_exit_modal show_exit_confirmation
                 hide_exit_confirmation add_log] in H;
          match type of H with
          | Ok _ = Ok _ => injection H as H
          | Raise _ = Ok _ => discriminate H
          | context [bind ?m _] =>
              let E := fresh "E" in destruct m as [?|?] eqn:E
          | context [if ?c then _ else _] =>
              let C := fresh "C" in destruct c eqn:C
          end).

Section Handlers.

Variable w : World.

Lemma truthy_some (g : gesture) :
  truthy g = true -> exists name, g = Some name /\ fmt g = name.
Proof. destruct g as [name|]; [exists name; auto|discriminate]. Qed.

(** X19: leaving the application takes a confirmed palm.  A call of
    [handle_gesture] stops the application only for a palm in the menu
    while the exit dialogue is showing; the dialogue comes up only for a
    palm in the menu; and while it is showing in the menu, any other
    gesture just closes it, leaving file list, selection, document and
    view alone. *)
Theorem exit_needs_confirmation (a a' : App) (g : gesture) :
  handle_gesture w a g = Ok a' ->
  (running a' <> running a ->
   running a' = false /\ g = Some "palm" /\
   current_view (ui a) = "menu" /\ show_exit_modal (ui a) = true) /\
  (show_exit_modal (ui a') = true -> show_exit_modal (ui a) = false ->
   g = Some "palm" /\ current_view (ui a) = "menu" /\
   running a' = running a) /\
  (current_view (ui a) = "menu" -> show_exit_modal (ui a) = true ->
   truthy g = true ->
   if String.eqb (fmt g) "palm"
   then running a' = false
   else show_exit_modal (ui a') = false /\ running a' = running a /\
        pdf_handler a' = pdf_handler a /\
        current_view (ui a') = "menu" /\
        current_text a' = current_text a /\ text_page a' = text_page a /\
        threads_started a' = threads_started a) /\
  (current_view (ui a) = "menu" -> show_exit_modal (ui a) = false ->
   g = Some "palm" ->
   show_exit_modal (ui a') = true /\ running a' = running a /\
   pdf_handler a' = pdf_handler a /\ current_view (ui a') = "menu").
Proof.
  intros H. unfold handle_gesture in H.
  destruct (truthy g) eqn:T.
  2:{ injection H as <-. repeat split; intros; try congruence.
      subst g. discriminate. }
  destruct (truthy_some g T) as (name & -> & Hf). cbn [fmt] in *.
  cbn [log_msg with_ui with_stats ui current_view add_log] in H.
  destruct (String.eqb (current_view (ui a)) "menu") eqn:V.
  - apply String.eqb_eq in V.
    unfold handle_menu_gesture in H.
    cbn [log_msg with_ui with_stats ui show_exit_modal add_log pdf_handler
           ollama_running] in H.
    destruct (show_exit_modal (ui a)) eqn:M.
    + destruct (String.eqb name "palm") eqn:P.
      * apply String.eqb_eq in P. subst name. injection H as <-.
        cbn. repeat split; intros; try congruence; try discriminate.
      * injection H as <-. cbn.
        repeat split; intros; try congruence; try discriminate.
    + destruct (String.eqb name "palm") eqn:P.
      * apply String.eqb_eq in P. subst name. injection H as <-.
        cbn. repeat split; intros; try congruence; try discriminate.
      * assert (Keep : running a' = running a /\
                       show_exit_modal (ui a') = false).
        { unfold menu_navigate, menu_open, request_ollama in H.
          split_handler H; subst a'; cbn; auto. }
        destruct Keep as [Kr Km]. apply String.eqb_neq in P.
        repeat split; intros; try congruence; try discriminate.
  - assert (Keep : running a' = running a /\
                   show_exit_modal (ui a') = show_exit_modal (ui a)).
    { unfold handle_document_gesture, request_ollama, document_turn in H.
      split_handler H; subst a'; cbn; auto. }
    destruct Keep as [Kr Km].
    apply String.eqb_neq in V.
    repeat split; intros; try congruence; try discriminate.
Qed.

Lemma list_getitem_in {A : Type} (l : list A) (i : Z) (x : A) :
  list_getitem l i = Ok x -> In x l.
Proof.
  unfold list_getitem. destruct (_ && _)%bool; [|discriminate].
  destruct (nth_error l _) as [y|] eqn:E; [|discriminate].
  intros H. injection H as <-. apply (nth_error_In _ _ E).
Qed.

Lemma get_current_file_in (h : PDFHandler) (name : string) :
  get_current_file h = Ok (Some name) -> In name (pdf_files h).
Proof.
  unfold get_current_file. destruct (negb _); [discriminate|].
  destruct (list_getitem _ _) as [x|e] eqn:E; cbn [bind]; [|discriminate].
  intros H. injection H as <-. apply (list_getitem_in _ _ _ E).
Qed.

Lemma navigate_keeps (h : PDFHandler) (direction : Z)
      (r : option string * PDFHandler) :
  navigate h direction = Ok r ->
  pdf_files (snd r) = pdf_files h /\ current_pdf (snd r) = current_pdf h /\
  current_page (snd r) = current_page h /\
  total_pages (snd r) = total_pages h.
Proof.
  unfold navigate. destruct (negb _).
  - intros H. injection H as <-. auto.
  - destruct (list_getitem _ _); cbn [bind]; [|discriminate].
    intros H. injection H as <-. auto.
Qed.

Lemma open_pdf_keeps (h : PDFHandler) (filename : option string)
      (r : bool * PDFHandler) :
  open_pdf w h filename = Ok r ->
  pdf_files (snd r) = pdf_files h /\
  current_file_index (snd r) = current_file_index h /\
  (page_in_document h -> page_in_document (snd r)).
Proof.
  unfold open_pdf. intros H.
  destruct (negb (nonempty _)).
  { injection H as <-. auto. }
  destruct (match filename with None => _ | Some f => _ end) as [name|e];
    cbn [bind] in H; [|discriminate].
  destruct (negb (exists_in _ _ _)).
  { injection H as <-. auto. }
  destruct (pdf_reader _ _ _) as [rd|]; [destruct (pages rd) as [ps|]|];
    injection H as <-; cbn [snd pdf_files current_file_index];
    refine (conj eq_refl (conj eq_refl _));
    unfold page_in_document; cbn; lia.
Qed.

Lemma close_pdf_keeps (h : PDFHandler) :
  pdf_files (snd (close_pdf h)) = pdf_files h /\
  current_file_index (snd (close_pdf h)) = current_file_index h /\
  (page_in_document h -> page_in_document (snd (close_pdf h))).
Proof.
  unfold close_pdf. destruct (pdf_open h); cbn [snd pdf_files
    current_file_index]; [|auto].
  refine (conj eq_refl (conj eq_refl _)).
  intros _. unfold page_in_document. cbn. lia.
Qed.

Lemma navigate_pdf_keeps (h : PDFHandler) (direction : Z) :
  pdf_files (snd (navigate_pdf h direction)) = pdf_files h /\
  current_file_index (snd (navigate_pdf h direction))
    = current_file_index h /\
  current_pdf (snd (navigate_pdf h direction)) = current_pdf h /\
  (page_in_document h -> page_in_document (snd (navigate_pdf h direction))).
Proof.
  unfold navigate_pdf. destruct (negb (pdf_open h)).
  { cbn. auto. }
  destruct (_ && _)%bool eqn:B; cbn [snd pdf_files current_file_index
    current_pdf]; [|auto].
  refine (conj eq_refl (conj eq_refl (conj eq_refl _))).
  intros _. unfold page_in_document. cbn.
  apply andb_true_iff in B as [B1 B2].
  apply Z.leb_le in B1. apply Z.ltb_lt in B2. lia.
Qed.

Lemma handle_gesture_files (a a' : App) (g : gesture) :
  handle_gesture w a g = Ok a' ->
  pdf_files (pdf_handler a') = pdf_files (pdf_handler a) /\
  (page_in_document (pdf_handler a) -> page_in_document (pdf_handler a')).
Proof.
  intros H.
  unfold handle_gesture, handle_menu_gesture, handle_document_gesture,
    menu_navigate, menu_open, request_ollama, document_turn in H.
  split_handler H; subst a'; cbn [pdf_handler with_pdf with_ui with_stats
    with_text with_text_page with_running log_msg start_ollama fst snd];
    auto;
    repeat match goal with
           | E : navigate _ _ = Ok ?r |- _ =>
               destruct (navigate_keeps _ _ _ E) as (? & ? & ? & ?); clear E
           | E : open_pdf w _ _ = Ok ?r |- _ =>
               destruct (open_pdf_keeps _ _ _ E) as (? & ? & ?); clear E
           end;
    try (pose proof (close_pdf_keeps (pdf_handler a)) as (? & ? & ?));
    try (pose proof (navigate_pdf_keeps (pdf_handler a) 1) as (? & ? & ? & ?));
    try (pose proof (navigate_pdf_keeps (pdf_handler a) (-1))
          as (? & ? & ? & ?));
    split; auto; unfold page_in_document in *; intros; try congruence.
Qed.

Lemma new_handler_valid (listing : list string) :
  pdf_files (new_handler w listing)
  = sort_strings (filter (is_pdf_file w) listing) /\
  current_file_index (new_handler w listing) = 0%Z /\
  current_pdf (new_handler w listing) = None /\
  page_in_document (new_handler w listing).
Proof.
  unfold new_handler, scan_folder, page_in_document. cbn.
  repeat split; auto; lia.
Qed.

Lemma scan_folder_pdf (listing : list string) (h : PDFHandler) :
  Forall (fun f => is_pdf_file w f = true)
         (pdf_files (scan_folder w listing h)).
Proof.
  apply Forall_forall. intros f Hf.
  unfold scan_folder in Hf. cbn [pdf_files] in Hf.
  apply (Permutation_in _ (sort_strings_perm _)) in Hf.
  apply filter_In in Hf. apply Hf.
Qed.

(** X20: text documents cannot be reached.  The file list holds PDF
    names only from the start, and that, together with "no text document
    is open", is kept by every call of [handle_gesture], by every
    [scan_folder] and by every [open_pdf]: the "ok" gesture never takes
    the text-file branch, and no gesture moves the text page. *)
Theorem text_documents_unreachable :
  (forall listing, pdf_only w (new_app w listing)) /\
  (forall a a' g,
      pdf_only w a -> handle_gesture w a g = Ok a' ->
      pdf_only w a' /\ text_page a' = text_page a) /\
  (forall a listing,
      pdf_only w a ->
      pdf_only w (with_pdf a (scan_folder w listing (pdf_handler a)))) /\
  (forall a filename r,
      pdf_only w a -> open_pdf w (pdf_handler a) filename = Ok r ->
      pdf_only w (with_pdf a (snd r))).
Proof.
  split; [|split; [|split]].
  - intros listing. split; [|reflexivity].
    unfold new_app, new_handler. cbn [pdf_handler]. apply scan_folder_pdf.
  - intros a a' g [Hpdf Htext] H.
    destruct (handle_gesture_files a a' g H) as [Hfiles _].
    unfold pdf_only. rewrite Hfiles.
    assert (Goal : truthy_str (current_text a') = false /\
                   text_page a' = text_page a); [|tauto].
    unfold handle_gesture, handle_menu_gesture, handle_document_gesture,
      menu_navigate, menu_open, request_ollama, document_turn in H.
    split_handler H; subst a';
      cbn [current_text text_page with_pdf with_ui with_stats with_text
             with_text_page with_running log_msg start_ollama];
      try (split; [assumption|reflexivity]);
      try (split; reflexivity);
      try congruence;
      match goal with
      | E : get_current_file _ = Ok ?s, T : truthy_str ?s = true,
        P : is_pdf_file w (fmt ?s) = false |- _ =>
          exfalso; destruct s as [n|]; [|discriminate];
          apply get_current_file_in in E;
          rewrite Forall_forall in Hpdf;
          cbn [fmt] in P; rewrite (Hpdf _ E) in P; discriminate
      end.
  - intros a listing [_ Htext]. split; [|exact Htext].
    cbn [pdf_handler with_pdf]. apply scan_folder_pdf.
  - intros a filename r [Hpdf Htext] H. split; [|exact Htext].
    cbn [pdf_handler with_pdf].
    destruct (open_pdf_keeps _ _ _ H) as (-> & _). exact Hpdf.
Qed.

(** X21: the page counter stays inside the document.  It is 0 or a page
    below [total_pages] after [__init__], and every call of
    [handle_gesture], [scan_folder], [open_pdf], [close_pdf] and
    [navigate_pdf] keeps it so; no gesture moves it past either end. *)
Theorem page_stays_in_document :
  (forall listing, page_in_document (pdf_handler (new_app w listing))) /\
  (forall a a' g,
      page_in_document (pdf_handler a) -> handle_gesture w a g = Ok a' ->
      page_in_document (pdf_handler a')) /\
  (forall h listing,
      page_in_document h -> page_in_document (scan_folder w listing h)) /\
  (forall h filename r,
      page_in_document h -> open_pdf w h filename = Ok r ->
      page_in_document (snd r)) /\
  (forall h, page_in_document h -> page_in_document (snd (close_pdf h))) /\
  (forall h direction,
      page_in_document h ->
      page_in_document (snd (navigate_pdf h direction))).
Proof.
  repeat apply conj.
  - intros listing. apply new_handler_valid.
  - intros a a' g Hp H. apply (handle_gesture_files a a' g H), Hp.
  - intros h listing Hp. exact Hp.
  - intros h filename r Hp H. apply (open_pdf_keeps _ _ _ H), Hp.
  - intros h Hp. apply close_pdf_keeps, Hp.
  - intros h direction Hp. apply navigate_pdf_keeps, Hp.
Qed.

End Handlers.

Section HandlerExamples.

Lemma exit_needs_confirmation_witness :
  exists a',
    handle_gesture sample_world asking_app (Some "palm") = Ok a' /\
    running asking_app = true /\ running a' = false.
Proof.
  destruct (handle_gesture sample_world asking_app (Some "palm")) as [a'|e] eqn:H.
  - exists a'. split; [reflexivity|]. split; [reflexivity|].
    destruct (exit_needs_confirmation sample_world asking_app a' (Some "palm") H)
      as (_ & _ & Confirmed & _).
    exact (Confirmed eq_refl eq_refl eq_refl).
  - exfalso. cbv in H. discriminate H.
Defined.

Lemma text_documents_unreachable_witness :
  exists a',
    handle_gesture sample_world sample_app (Some "ok") = Ok a' /\
    pdf_only sample_world a'.
Proof.
  destruct (handle_gesture sample_world sample_app (Some "ok")) as [a'|e] eqn:H.
  - exists a'. split; [reflexivity|].
    destruct (text_documents_unreachable sample_world) as (Start & Step & _).
    apply (Step sample_app a' (Some "ok")); [|exact H].
    exact (Start ["b.pdf"; "notes.txt"; "a.pdf"]).
  - exfalso. cbv in H. discriminate H.
Defined.

Lemma page_stays_in_document_witness :
  exists a',
    handle_gesture sample_world sample_app (Some "ok") = Ok a' /\
    page_in_document (pdf_handler a').
Proof.
  destruct (handle_gesture sample_world sample_app (Some "ok")) as [a'|e] eqn:H.
  - exists a'. split; [reflexivity|].
    destruct (page_stays_in_document sample_world) as (Start & Step & _).
    apply (Step sample_app a' (Some "ok")); [|exact H].
    exact (Start ["b.pdf"; "notes.txt"; "a.pdf"]).
  - exfalso. cbv in H. discriminate H.
Defined.

End HandlerExamples.
